(** * ken-portfolio: page metadata registry and content collection schemas

    A shallow embedding of [src/pages.config.ts]: the [pagesConfig] table
    and the four Zod schemas registered with Astro's content collections
    ([projects], [journey], [uses], [testimonials]).

    The schemas are declarative: the source only builds Zod schema objects.
    They are embedded as data ([ZodType]) and interpreted by [_parse], which
    follows Zod 3 (the version shipped by Astro's [astro:content]) for the
    combinators the source uses.  The parts of the JavaScript host that the
    ECMAScript and URL standards leave open, or that are too large to embed
    (legacy date formats, the URL state machine after the scheme), are the
    fields of a [Host] record that every theorem quantifies over. *)

From Stdlib Require Import ZArith List String Ascii Bool Lia.
From Stdlib Require Import Floats.SpecFloat.
Import ListNotations.

Set Warnings "-register-all".

Local Open Scope string_scope.
Local Open Scope list_scope.

(* ================================================================== *)
(** ** Page metadata registry *)

Module Pages.

(** [interface PageMeta]: [heading] and [intro] are optional properties. *)
Record PageMeta := mkPageMeta {
  title : string;
  description : string;
  heading : option string;
  intro : option string
}.

(** The keys of the [pagesConfig] object literal ([as const]). *)
Inductive PageId := home | projects | journey | uses | contact.

Definition all_pages : list PageId := [home; projects; journey; uses; contact].

Definition pagesConfig (p : PageId) : PageMeta :=
  match p with
  | home => mkPageMeta
      "Home"
      "Engineering leader specializing in system architecture, technical decision-making, and delivering measurable business impact."
      None None
  | projects => mkPageMeta
      "Projects"
      "Data analysis projects showcasing problem-solving approach, analytical methods, and measurable impact across various domains."
      (Some "Projects")
      (Some "Projects that demonstrate how I approach data problems, apply analytical methods, and deliver actionable insights. Each project tells the story of the challenge, the data, the analysis performed, and the outcomes achieved.")
  | journey => mkPageMeta
      "Journey - Career Growth & Learning Timeline"
      "A chronological timeline of my professional journey, highlighting key milestones, learning moments, and career transitions that shaped my growth as a Data Analyst."
      (Some "Journey")
      (Some "A timeline of my professional growth and learning progression. This isn't a resume—it's a story of how I've evolved as a Data Analyst, the pivotal moments that shaped my thinking, and the skills I've developed along the way.")
  | uses => mkPageMeta
      "Uses - Tools & Tech Stack"
      "A comprehensive list of the tools and technologies I use for development work."
      (Some "Uses")
      (Some "A transparent look at the tools and technologies that power my development workflow. This page documents what I use and why, helping other engineers discover useful tools and understand my technical context.")
  | contact => mkPageMeta
      "Contact - Get in Touch"
      "Get in touch to discuss opportunities, collaborations, or technical challenges."
      (Some "Let's Talk")
      None
  end.

End Pages.

(* ================================================================== *)
(** ** JavaScript values and the host functions the schemas reach *)

Module JS.

(** IEEE 754 binary64, the JavaScript Number type. *)
Definition number := spec_float.

Definition prec : Z := 53.
Definition emax : Z := 1024.

(** The Number whose value is [m * 2^e], rounded to binary64. *)
Definition number_of (m e : Z) : number := binary_normalize prec emax m e false.
Definition number_of_Z (z : Z) : number := number_of z 0.

(** Raw frontmatter data and parsed output.  An object is its list of own
    properties; [get] reads the first binding of a key.  A [Date] carries
    its time value, milliseconds since the epoch, [None] for an invalid
    date (time value NaN). *)
Inductive value :=
| VUndefined
| VNull
| VBool (b : bool)
| VNumber (n : number)
| VString (s : string)
| VDate (t : option Z)
| VArray (elems : list value)
| VObject (props : list (string * value)).

(** [key in o] *)
Fixpoint has (o : list (string * value)) (key : string) : bool :=
  match o with
  | [] => false
  | (k, _) :: rest => if String.eqb k key then true else has rest key
  end.

(** [o[key]]: a missing property reads as [undefined]. *)
Fixpoint get (o : list (string * value)) (key : string) : value :=
  match o with
  | [] => VUndefined
  | (k, v) :: rest => if String.eqb k key then v else get rest key
  end.

(** Property access on any value, [undefined] off objects. *)
Definition prop (v : value) (key : string) : value :=
  match v with VObject o => get o key | _ => VUndefined end.

(** [a[i]] *)
Definition item (v : value) (i : nat) : value :=
  match v with VArray l => nth i l VUndefined | _ => VUndefined end.

(** [Number.isInteger] *)
Definition Number_isInteger (n : number) : bool :=
  match n with
  | S754_zero _ => true
  | S754_finite _ m e =>
      if (0 <=? e)%Z then true
      else (Z.pos m mod 2 ^ (- e) =? 0)%Z
  | _ => false
  end.

(** *** Dates *)

Local Open Scope Z_scope.

Definition digit (c : ascii) : option Z :=
  let n := Z.of_nat (nat_of_ascii c) in
  if (48 <=? n) && (n <=? 57) then Some (n - 48) else None.

(** Exactly [k] decimal digits at the head of [s]. *)
Fixpoint digits (k : nat) (s : string) (acc : Z) : option (Z * string) :=
  match k with
  | O => Some (acc, s)
  | S k' =>
      match s with
      | EmptyString => None
      | String c rest =>
          match digit c with
          | Some d => digits k' rest (10 * acc + d)
          | None => None
          end
      end
  end.

Definition expect (c : ascii) (s : string) : option string :=
  match s with
  | String c' rest => if Ascii.eqb c c' then Some rest else None
  | EmptyString => None
  end.

Definition is_leap (y : Z) : bool :=
  ((y mod 4 =? 0) && negb (y mod 100 =? 0)) || (y mod 400 =? 0).

Definition days_in_month (y m : Z) : Z :=
  if m =? 2 then (if is_leap y then 29 else 28)
  else if (m =? 4) || (m =? 6) || (m =? 9) || (m =? 11) then 30
  else 31.

(** ECMAScript [MakeDay] for an in-range month and day: the day number
    of the civil date, day 0 being 1970-01-01. *)
Definition MakeDay (y m d : Z) : Z :=
  let y' := if m <=? 2 then y - 1 else y in
  let era := y' / 400 in
  let yoe := y' - era * 400 in
  let mp := (m + 9) mod 12 in
  let doy := (153 * mp + 2) / 5 + d - 1 in
  let doe := yoe * 365 + yoe / 4 - yoe / 100 + doy in
  era * 146097 + doe - 719468.

Definition msPerDay : Z := 86400000.

(** [MakeTime] *)
Definition MakeTime (hh mm ss ms : Z) : Z :=
  hh * 3600000 + mm * 60000 + ss * 1000 + ms.

(** The date part of the Date Time String Format: [YYYY], [YYYY-MM] or
    [YYYY-MM-DD], with the fields in range.  Returns the day number and
    the unread suffix. *)
Definition parse_iso_date (s : string) : option (Z * string) :=
  match digits 4 s 0 with
  | None => None
  | Some (y, s1) =>
      match expect "-" s1 with
      | None => Some (MakeDay y 1 1, s1)
      | Some s2 =>
          match digits 2 s2 0 with
          | None => None
          | Some (m, s3) =>
              if (1 <=? m) && (m <=? 12) then
                match expect "-" s3 with
                | None => Some (MakeDay y m 1, s3)
                | Some s4 =>
                    match digits 2 s4 0 with
                    | None => None
                    | Some (d, s5) =>
                        if (1 <=? d) && (d <=? days_in_month y m)
                        then Some (MakeDay y m d, s5)
                        else None
                    end
                end
              else None
          end
      end
  end.

(** The time part with the UTC designator: [THH:mm], [THH:mm:ss] or
    [THH:mm:ss.sss], followed by [Z], with the fields in range. *)
Definition parse_iso_time_utc (s : string) : option Z :=
  match expect "T" s with
  | None => None
  | Some s1 =>
      match digits 2 s1 0 with
      | None => None
      | Some (hh, s2) =>
          match expect ":" s2 with
          | None => None
          | Some s3 =>
              match digits 2 s3 0 with
              | None => None
              | Some (mm, s4) =>
                  if (hh <=? 23) && (mm <=? 59) then
                    match expect ":" s4 with
                    | None =>
                        if String.eqb s4 "Z" then Some (MakeTime hh mm 0 0) else None
                    | Some s5 =>
                        match digits 2 s5 0 with
                        | None => None
                        | Some (ss, s6) =>
                            if ss <=? 59 then
                              match expect "." s6 with
                              | None =>
                                  if String.eqb s6 "Z"
                                  then Some (MakeTime hh mm ss 0) else None
                              | Some s7 =>
                                  match digits 3 s7 0 with
                                  | None => None
                                  | Some (ms, s8) =>
                                      if String.eqb s8 "Z"
                                      then Some (MakeTime hh mm ss ms) else None
                                  end
                              end
                            else None
                        end
                    end
                  else None
              end
          end
      end
  end.

(** The strings whose time value ECMAScript fixes without reference to
    the local time zone: a date-only form (read as UTC), or a date and a
    time with the [Z] designator. *)
Definition parse_iso_utc (s : string) : option Z :=
  match parse_iso_date s with
  | None => None
  | Some (day, rest) =>
      match rest with
      | EmptyString => Some (day * msPerDay)
      | _ =>
          match parse_iso_time_utc rest with
          | Some t => Some (day * msPerDay + t)
          | None => None
          end
      end
  end.

(** [TimeClip(ToNumber(n))]: truncation toward zero, NaN beyond
    8.64e15 ms. *)
Definition TimeClip (n : number) : option Z :=
  match n with
  | S754_zero _ => Some 0
  | S754_finite s m e =>
      let a := if 0 <=? e then Z.pos m * 2 ^ e else Z.pos m / 2 ^ (- e) in
      if a <=? 8640000000000000 then Some (if s then - a else a) else None
  | _ => None
  end.

(** *** URLs *)

Definition code (c : ascii) : Z := Z.of_nat (nat_of_ascii c).

Definition is_alpha (c : ascii) : bool :=
  let n := code c in
  ((65 <=? n) && (n <=? 90)) || ((97 <=? n) && (n <=? 122)).

Definition is_scheme_char (c : ascii) : bool :=
  let n := code c in
  is_alpha c || ((48 <=? n) && (n <=? 57))
  || (n =? 43) || (n =? 45) || (n =? 46).

(** C0 control or space *)
Definition is_c0_or_space (c : ascii) : bool := code c <=? 32.

(** ASCII tab or newline *)
Definition is_tab_or_newline (c : ascii) : bool :=
  let n := code c in (n =? 9) || (n =? 10) || (n =? 13).

Fixpoint strip_leading (s : string) : string :=
  match s with
  | String c rest => if is_c0_or_space c then strip_leading rest else s
  | EmptyString => EmptyString
  end.

(** Drops trailing C0 controls and spaces, and every tab and newline. *)
Fixpoint strip_trailing_and_newlines (s : string) : string :=
  match s with
  | EmptyString => EmptyString
  | String c rest =>
      let rest' := strip_trailing_and_newlines rest in
      if is_tab_or_newline c then rest'
      else match rest' with
           | EmptyString => if is_c0_or_space c then EmptyString else String c EmptyString
           | _ => String c rest'
           end
  end.

(** URL parser, scheme state: scheme characters up to a colon. *)
Fixpoint scheme_state (s : string) : bool :=
  match s with
  | EmptyString => false
  | String c rest =>
      if is_scheme_char c then scheme_state rest
      else (code c =? 58)
  end.

(** URL parser, scheme start state, no base URL: without a scheme the
    parser fails in the no scheme state. *)
Definition has_scheme (s : string) : bool :=
  match strip_trailing_and_newlines (strip_leading s) with
  | EmptyString => false
  | String c rest => is_alpha c && scheme_state rest
  end.

(** *** The host *)

(** What is left to the JavaScript engine.
    - [Date_parse_other]: [Date.parse] on a string outside
      [parse_iso_utc] (local-time forms, out-of-range fields and the
      implementation-defined legacy formats);
    - [Date_of_object]: the time value of [new Date(o)] for an array or
      an object [o] (ToPrimitive, then [Date.parse] of the string);
    - [URL_after_scheme]: whether the URL parser accepts an input whose
      scheme has been read. *)
Record Host := mkHost {
  Date_parse_other : string -> option Z;
  Date_of_object : value -> option Z;
  URL_after_scheme : string -> bool
}.

(** [Date.parse] *)
Definition Date_parse (h : Host) (s : string) : option Z :=
  match parse_iso_utc s with
  | Some t => Some t
  | None => Date_parse_other h s
  end.

(** The time value of [new Date(v)]. *)
Definition new_Date (h : Host) (v : value) : option Z :=
  match v with
  | VDate t => t
  | VString s => Date_parse h s
  | VUndefined => None
  | VNull => Some 0
  | VBool b => Some (if b then 1 else 0)
  | VNumber n => TimeClip n
  | VArray _ | VObject _ => Date_of_object h v
  end.

(** [new URL(s)] returns rather than throws. *)
Definition URL_ok (h : Host) (s : string) : bool :=
  has_scheme s && URL_after_scheme h s.

(** A host that rejects whatever the standards leave to it. *)
Definition strict_host : Host :=
  mkHost (fun _ => None) (fun _ => None) (fun _ => false).

(** A host that accepts every input with a scheme as a URL. *)
Definition lax_host : Host :=
  mkHost (fun _ => None) (fun _ => None) (fun _ => true).

End JS.


(* ================================================================== *)
(** ** The Zod combinators used by the schemas *)

Module Zod.
Import JS.

(** [ZodParsedType], as far as [value] reaches. *)
Inductive ZodParsedType :=
| PTstring | PTnan | PTnumber | PTboolean | PTdate
| PTundefined | PTnull | PTarray | PTobject.

(** [getParsedType] *)
Definition getParsedType (v : value) : ZodParsedType :=
  match v with
  | VUndefined => PTundefined
  | VString _ => PTstring
  | VNumber S754_nan => PTnan
  | VNumber _ => PTnumber
  | VBool _ => PTboolean
  | VNull => PTnull
  | VArray _ => PTarray
  | VDate _ => PTdate
  | VObject _ => PTobject
  end.

(** What an [invalid_type] issue expected: a parsed type, or for an enum
    the joined list of its members. *)
Inductive Expected :=
| ExpType (t : ZodParsedType)
| ExpOneOf (options : list string).

(** [ZodIssueCode] with the payload of each issue. *)
Inductive ZodIssueCode :=
| invalid_type (expected : Expected) (received : ZodParsedType)
| invalid_enum_value (options : list string) (received : string)
| invalid_string_url
| invalid_date.

Inductive PathSegment :=
| Key (k : string)
| Index (i : nat).

Record ZodIssue := mkIssue {
  path : list PathSegment;
  code : ZodIssueCode
}.

(** The result of [safeParse]: the parsed data, or a [ZodError] with its
    issues in the order they were raised. *)
Inductive SafeParseReturn :=
| Success (data : value)
| Failure (issues : list ZodIssue).

Definition issues_of (r : SafeParseReturn) : list ZodIssue :=
  match r with Success _ => [] | Failure l => l end.

Definition is_success (r : SafeParseReturn) : bool :=
  match r with Success _ => true | Failure _ => false end.

(** An issue raised below path segment [seg]. *)
Definition under (seg : PathSegment) (i : ZodIssue) : ZodIssue :=
  mkIssue (seg :: path i) (code i).

Definition issue_here (c : ZodIssueCode) : SafeParseReturn :=
  Failure [mkIssue [] c].

(** The schema objects the source builds:
    [z.string()] and [z.string().url()], [z.number()], [z.boolean()],
    [z.coerce.date()], [z.enum([...])], [z.array(e)], [z.object({...})]
    (unknown keys stripped, the default), [.optional()] and
    [.default(v)]. *)
Inductive ZodType :=
| ZodString (url : bool)
| ZodNumber
| ZodBoolean
| ZodCoerceDate
| ZodEnum (values : list string)
| ZodArray (element : ZodType)
| ZodObject (shape : list (string * ZodType))
| ZodOptional (innerType : ZodType)
| ZodDefault (innerType : ZodType) (defaultValue : value).

(** [values.indexOf(s) !== -1] *)
Fixpoint includes (values : list string) (s : string) : bool :=
  match values with
  | [] => false
  | v :: rest => String.eqb v s || includes rest s
  end.

(** [ParseStatus.mergeArray]: the elements' data when all are valid, else
    every element's issues, each below its index. *)
Fixpoint mergeArray (i : nat) (results : list SafeParseReturn)
  : list value * list ZodIssue :=
  match results with
  | [] => ([], [])
  | r :: rest =>
      let (vs, errs) := mergeArray (S i) rest in
      match r with
      | Success v => (v :: vs, errs)
      | Failure l => (vs, map (under (Index i)) l ++ errs)
      end
  end.

(** One entry of the [pairs] of [ZodObject._parse]: the key, whether the
    key is in the input ([alwaysSet]) and the result for its value. *)
Definition Pair : Type := string * bool * SafeParseReturn.

(** [ParseStatus.mergeObjectSync]: a key is set in the output when its
    value is not [undefined] or the key was in the input; issues are
    kept below the key. *)
Fixpoint mergeObjectSync (pairs : list Pair)
  : list (string * value) * list ZodIssue :=
  match pairs with
  | [] => ([], [])
  | (k, alwaysSet, r) :: rest =>
      let (kvs, errs) := mergeObjectSync rest in
      match r with
      | Success v =>
          match v with
          | VUndefined => if alwaysSet then ((k, v) :: kvs, errs) else (kvs, errs)
          | _ => ((k, v) :: kvs, errs)
          end
      | Failure l => (kvs, map (under (Key k)) l ++ errs)
      end
  end.

Definition finish (mk : list value -> value)
           (m : list value * list ZodIssue) : SafeParseReturn :=
  match snd m with
  | [] => Success (mk (fst m))
  | errs => Failure errs
  end.

Definition finishObject (m : list (string * value) * list ZodIssue)
  : SafeParseReturn :=
  match snd m with
  | [] => Success (VObject (fst m))
  | errs => Failure errs
  end.

(** [schema.safeParse(input)] *)
Fixpoint _parse (h : Host) (t : ZodType) (input : value) : SafeParseReturn :=
  match t with
  | ZodString url =>
      match input with
      | VString s =>
          if url then
            if URL_ok h s then Success input else issue_here invalid_string_url
          else Success input
      | _ => issue_here (invalid_type (ExpType PTstring) (getParsedType input))
      end
  | ZodNumber =>
      match getParsedType input with
      | PTnumber => Success input
      | pt => issue_here (invalid_type (ExpType PTnumber) pt)
      end
  | ZodBoolean =>
      match input with
      | VBool _ => Success input
      | _ => issue_here (invalid_type (ExpType PTboolean) (getParsedType input))
      end
  | ZodCoerceDate =>
      match new_Date h input with
      | Some t => Success (VDate (Some t))
      | None => issue_here invalid_date
      end
  | ZodEnum values =>
      match input with
      | VString s =>
          if includes values s then Success input
          else issue_here (invalid_enum_value values s)
      | _ => issue_here (invalid_type (ExpOneOf values) (getParsedType input))
      end
  | ZodArray element =>
      match input with
      | VArray elems =>
          finish VArray (mergeArray 0 (map (_parse h element) elems))
      | _ => issue_here (invalid_type (ExpType PTarray) (getParsedType input))
      end
  | ZodObject shape =>
      match input with
      | VObject o =>
          finishObject (mergeObjectSync
            ((fix pairs (sh : list (string * ZodType)) : list Pair :=
                match sh with
                | [] => []
                | (k, s) :: rest => (k, has o k, _parse h s (get o k)) :: pairs rest
                end) shape))
      | _ => issue_here (invalid_type (ExpType PTobject) (getParsedType input))
      end
  | ZodOptional innerType =>
      match input with
      | VUndefined => Success VUndefined
      | _ => _parse h innerType input
      end
  | ZodDefault innerType defaultValue =>
      match input with
      | VUndefined => _parse h innerType defaultValue
      | _ => _parse h innerType input
      end
  end.

(** The [pairs] loop of [ZodObject._parse], named. *)
Fixpoint pairs_of (h : Host) (o : list (string * value))
         (shape : list (string * ZodType)) : list Pair :=
  match shape with
  | [] => []
  | (k, s) :: rest => (k, has o k, _parse h s (get o k)) :: pairs_of h o rest
  end.

(** The schema of a key of an object shape. *)
Fixpoint shape_get (shape : list (string * ZodType)) (key : string)
  : option ZodType :=
  match shape with
  | [] => None
  | (k, s) :: rest => if String.eqb k key then Some s else shape_get rest key
  end.

End Zod.

(* ================================================================== *)
(** ** Content collections *)

Module Content.
Import JS Zod.

(** [glob({ pattern, base })] *)
Record Loader := glob {
  pattern : string;
  base : string
}.

(** [defineCollection({ loader, schema })] *)
Record Collection := defineCollection {
  loader : Loader;
  schema : ZodType
}.

Definition z_string : ZodType := ZodString false.
Definition z_string_url : ZodType := ZodString true.

Definition projectsShape : list (string * ZodType) :=
  [ ("title", z_string);
    ("role", z_string);
    ("year", ZodNumber);
    ("duration", ZodOptional z_string);
    ("teamSize", ZodOptional ZodNumber);
    ("outcomeSummary", z_string);
    ("overview", z_string);
    ("problem", z_string);
    ("constraints", ZodArray z_string);
    ("approach", z_string);
    ("techStack", ZodArray z_string);
    ("impact", ZodObject
       [ ("metrics", ZodOptional (ZodArray (ZodObject
            [ ("label", z_string);
              ("value", z_string) ])));
         ("qualitative", z_string) ]);
    ("learnings", ZodArray z_string);
    ("featured", ZodDefault ZodBoolean (VBool false));
    ("status", ZodDefault (ZodEnum ["completed"; "ongoing"; "archived"])
                          (VString "completed"));
    ("order", ZodOptional ZodNumber);
    ("relatedProjects", ZodOptional (ZodArray z_string));
    ("githubUrl", ZodOptional z_string_url) ].

Definition projectsCollection : Collection :=
  defineCollection
    (glob "**/*.mdx" "./src/content/projects")
    (ZodObject projectsShape).

Definition journeyShape : list (string * ZodType) :=
  [ ("date", ZodCoerceDate);
    ("title", z_string);
    ("type", ZodEnum ["milestone"; "learning"; "transition"]);
    ("description", z_string);
    ("skills", ZodOptional (ZodArray z_string)) ].

Definition journeyCollection : Collection :=
  defineCollection
    (glob "**/*.mdx" "./src/content/journey")
    (ZodObject journeyShape).

(** The object schema of one element of [items]. *)
Definition usesItemShape : list (string * ZodType) :=
  [ ("name", z_string);
    ("description", z_string);
    ("url", ZodOptional z_string_url) ].

Definition usesShape : list (string * ZodType) :=
  [ ("category", ZodEnum ["tools"; "stack"]);
    ("items", ZodArray (ZodObject usesItemShape));
    ("order", ZodNumber) ].

Definition usesCollection : Collection :=
  defineCollection
    (glob "**/*.mdx" "./src/content/uses")
    (ZodObject usesShape).

Definition testimonialsShape : list (string * ZodType) :=
  [ ("name", z_string);
    ("role", z_string);
    ("company", z_string);
    ("relationship", z_string);
    ("quote", z_string);
    ("linkedin", ZodOptional z_string_url);
    ("featured", ZodDefault ZodBoolean (VBool false));
    ("date", ZodCoerceDate) ].

Definition testimonialsCollection : Collection :=
  defineCollection
    (glob "**/*.mdx" "./src/content/testimonials")
    (ZodObject testimonialsShape).

(** The keys of the exported [collections] object. *)
Inductive CollectionName := projects | journey | uses | testimonials.

Definition collections (k : CollectionName) : Collection :=
  match k with
  | projects => projectsCollection
  | journey => journeyCollection
  | uses => usesCollection
  | testimonials => testimonialsCollection
  end.

(** The shape of the object schema of each collection. *)
Definition shape_of (k : CollectionName) : list (string * ZodType) :=
  match k with
  | projects => projectsShape
  | journey => journeyShape
  | uses => usesShape
  | testimonials => testimonialsShape
  end.

(** Validation of one raw entry against the schema of its collection. *)
Definition validate (h : Host) (k : CollectionName) (raw : value)
  : SafeParseReturn :=
  _parse h (schema (collections k)) raw.

End Content.

(* ================================================================== *)
(** ** Sample entries *)

Module Samples.
Import JS Zod Content.

Definition strs (l : list string) : value := VArray (map VString l).

(** A project entry with every required field and no optional one. *)
Definition project_required : list (string * value) :=
  [ ("title", VString "Churn model");
    ("role", VString "Analyst");
    ("year", VNumber (number_of_Z 2023));
    ("outcomeSummary", VString "Reduced churn");
    ("overview", VString "Overview");
    ("problem", VString "Problem");
    ("constraints", strs ["Two weeks"]);
    ("approach", VString "Approach");
    ("techStack", strs ["SQL"; "Python"]);
    ("impact", VObject [ ("qualitative", VString "Better retention") ]);
    ("learnings", strs ["Ask early"]) ].

(** [o] without its bindings of [key]. *)
Fixpoint remove (key : string) (o : list (string * value))
  : list (string * value) :=
  match o with
  | [] => []
  | (k, v) :: rest =>
      if String.eqb k key then remove key rest else (k, v) :: remove key rest
  end.


Definition journey_entry (date : value) (type : value)
  : list (string * value) :=
  [ ("date", date);
    ("title", VString "First dashboard");
    ("type", type);
    ("description", VString "Shipped it") ].

(** The uses entry of the round-trip example. *)
Definition uses_tools : list (string * value) :=
  [ ("category", VString "tools");
    ("items", VArray [ VObject [ ("name", VString "Editor");
                                 ("description", VString "Code editing") ] ]);
    ("order", VNumber (number_of_Z 1)) ].

(** [project_required] with another [year]. *)
Definition project_with_year (year : value) : list (string * value) :=
  ("year", year) :: remove "year" project_required.

(** [year: 2023.5] *)
Definition project_fractional_year : list (string * value) :=
  project_with_year (VNumber (number_of 4047 (-1))).

(** [year: "2023"], a string. *)
Definition project_string_year : list (string * value) :=
  project_with_year (VString "2023").

(** A project entry with mistakes below the top level: two constraints
    that are not strings and an [impact] without [qualitative]. *)
Definition project_nested_mistakes : list (string * value) :=
  ("constraints", VArray [ VNumber (number_of_Z 1); VString "Two weeks"; VNull ]) ::
  ("impact", VObject [ ("metrics", VArray []) ]) ::
  remove "constraints" (remove "impact" project_required).

(** A uses entry whose second item has a [url] that is not a URL. *)
Definition uses_bad_item_url : list (string * value) :=
  [ ("category", VString "stack");
    ("items", VArray [ VObject [ ("name", VString "Astro");
                                 ("description", VString "Site framework");
                                 ("url", VString "https://astro.build") ];
                       VObject [ ("name", VString "Zod");
                                 ("description", VString "Schemas");
                                 ("url", VString "zod.dev") ] ]);
    ("order", VNumber (number_of_Z 2)) ].

(** [date: null] *)
Definition journey_null_date : list (string * value) :=
  journey_entry VNull (VString "milestone").

(** [date: false] *)
Definition journey_false_date : list (string * value) :=
  journey_entry (VBool false) (VString "milestone").

(** A [date] that is not a date. *)
Definition journey_bad_date : list (string * value) :=
  journey_entry (VString "yesterday") (VString "milestone").

(** A [type] outside the enumeration. *)
Definition journey_bad_type : list (string * value) :=
  journey_entry (VString "2023-05-01") (VString "promotion").

(** A project entry with [status: "done"]. *)
Definition project_bad_status : list (string * value) :=
  ("status", VString "done") :: project_required.


Definition testimonial_entry (linkedin : value) : list (string * value) :=
  [ ("name", VString "Ada");
    ("role", VString "Lead");
    ("company", VString "Acme");
    ("relationship", VString "Manager");
    ("quote", VString "Great work");
    ("linkedin", linkedin);
    ("date", VString "2024-01-15") ].

(** The top-level keys that hold a URL. *)
Definition url_fields : list (CollectionName * string) :=
  [ (projects, "githubUrl"); (testimonials, "linkedin") ].

End Samples.


(* ================================================================== *)
(** ** Reading a report *)

Module Report.
Import JS Zod.

(** The issues of the fields of a shape, each below its key, in the
    order of the shape. *)
Definition field_issues (h : Host) (o : list (string * value))
           (shape : list (string * ZodType)) : list ZodIssue :=
  flat_map (fun ks => map (under (Key (fst ks)))
                          (issues_of (_parse h (snd ks) (get o (fst ks)))))
           shape.

(** The issues whose path starts at key [f]. *)
Definition issues_at (f : string) (errs : list ZodIssue) : list ZodIssue :=
  filter (fun i => match path i with
                   | Key k :: _ => String.eqb k f
                   | _ => false
                   end) errs.


(** The issue of a string that is not a URL. *)
Definition not_a_url (key : string) : ZodIssue :=
  mkIssue [Key key] invalid_string_url.


Definition keys (shape : list (string * ZodType)) : list string :=
  map fst shape.

End Report.

(* ================================================================== *)
(** ** Kinds of schema *)

Module Shapes.
Import JS Zod Content.

(** A schema without [z.object], [z.coerce.date()] or [.default()]:
    strings, numbers, booleans and enumerations, and arrays and optionals
    of these. *)
Fixpoint plain (t : ZodType) : bool :=
  match t with
  | ZodString _ | ZodNumber | ZodBoolean | ZodEnum _ => true
  | ZodArray element => plain element
  | ZodOptional innerType => plain innerType
  | ZodCoerceDate | ZodObject _ | ZodDefault _ _ => false
  end.

(** A schema ending in [.optional()] or [.default(v)]. *)
Definition may_be_omitted (t : ZodType) : bool :=
  match t with
  | ZodOptional _ | ZodDefault _ _ => true
  | _ => false
  end.

(** Whether a schema reaches [z.coerce.date()]. *)
Fixpoint coerces_date (t : ZodType) : bool :=
  match t with
  | ZodCoerceDate => true
  | ZodArray element => coerces_date element
  | ZodObject shape =>
      (fix any (sh : list (string * ZodType)) : bool :=
         match sh with
         | [] => false
         | (_, s) :: rest => coerces_date s || any rest
         end) shape
  | ZodOptional innerType => coerces_date innerType
  | ZodDefault innerType _ => coerces_date innerType
  | _ => false
  end.

(** Whether a schema reaches the [url] check of a string. *)
Fixpoint checks_url (t : ZodType) : bool :=
  match t with
  | ZodString url => url
  | ZodArray element => checks_url element
  | ZodObject shape =>
      (fix any (sh : list (string * ZodType)) : bool :=
         match sh with
         | [] => false
         | (_, s) :: rest => checks_url s || any rest
         end) shape
  | ZodOptional innerType => checks_url innerType
  | ZodDefault innerType _ => checks_url innerType
  | _ => false
  end.

(** No string twice in a list. *)
Fixpoint distinct (l : list string) : bool :=
  match l with
  | [] => true
  | x :: rest => negb (includes rest x) && distinct rest
  end.

(** Every object shape of a schema names each key once, as an object
    literal does. *)
Fixpoint distinct_keys (t : ZodType) : bool :=
  match t with
  | ZodArray element => distinct_keys element
  | ZodObject shape =>
      distinct (map fst shape)
      && (fix all (sh : list (string * ZodType)) : bool :=
            match sh with
            | [] => true
            | (_, s) :: rest => distinct_keys s && all rest
            end) shape
  | ZodOptional innerType => distinct_keys innerType
  | ZodDefault innerType _ => distinct_keys innerType
  | _ => true
  end.

(** The issues of the elements of an array from index [i] on, each below
    its index. *)
Fixpoint element_issues (h : Host) (element : ZodType) (i : nat)
         (elems : list value) : list ZodIssue :=
  match elems with
  | [] => []
  | x :: rest =>
      map (under (Index i)) (issues_of (_parse h element x))
      ++ element_issues h element (S i) rest
  end.

(** The name of a collection, the key of [collections] as a string. *)
Definition name_of (k : CollectionName) : string :=
  match k with
  | projects => "projects"
  | journey => "journey"
  | uses => "uses"
  | testimonials => "testimonials"
  end.

(** Two hosts with the same date functions. *)
Definition same_dates (h1 h2 : Host) : Prop :=
  (forall s, Date_parse_other h1 s = Date_parse_other h2 s)
  /\ (forall v, Date_of_object h1 v = Date_of_object h2 v).

(** Two hosts with the same URL parser. *)
Definition same_urls (h1 h2 : Host) : Prop :=
  forall s, URL_after_scheme h1 s = URL_after_scheme h2 s.

(** A host that reads every string it is left with as the epoch. *)
Definition epoch_host : Host :=
  mkHost (fun _ => Some 0%Z) (fun _ => Some 0%Z) (fun _ => false).

(** A character that a valid URL string can hold: a URL code point among
    the ASCII characters, the percent sign of an escape, or one of the
    delimiters [#], [[] and []]; bytes of a character outside ASCII are
    let through.  A space or a backslash is none of these. *)
Definition is_url_unit (c : ascii) : bool :=
  let n := JS.code c in
  is_alpha c || ((48 <=? n)%Z && (n <=? 57)%Z) || (128 <=? n)%Z
  || existsb (Z.eqb n)
       [33; 35; 36; 37; 38; 39; 40; 41; 42; 43; 44; 45; 46; 47; 58; 59; 61;
        63; 64; 91; 93; 95; 126]%Z.

Fixpoint only_url_units (s : string) : bool :=
  match s with
  | EmptyString => true
  | String c rest => is_url_unit c && only_url_units rest
  end.

(** A host in a time zone [LocalTZA] milliseconds east of UTC: a date and
    time in the ISO format without a UTC designator is local time, so its
    time value is the one read as UTC less [LocalTZA].  The URL parser
    accepts every input with a scheme. *)
Definition zone_host (LocalTZA : Z) : Host :=
  mkHost (fun s => match parse_iso_utc (s ++ "Z")%string with
                   | Some t => Some (t - LocalTZA)%Z
                   | None => None
                   end)
         (fun _ => None)
         (fun _ => true).

(** Pacific Daylight Time, seven hours west of UTC. *)
Definition pacific_daylight : Z := (-25200000)%Z.


(** A testimonial entry with the given [linkedin] and [date]. *)
Definition testimonial_with (linkedin date : value) : list (string * value) :=
  [ ("name", VString "Ada");
    ("role", VString "Lead");
    ("company", VString "Acme");
    ("relationship", VString "Manager");
    ("quote", VString "Great work");
    ("linkedin", linkedin);
    ("date", date) ].

(** The data of [testimonial_with] when it is valid. *)
Definition testimonial_data (linkedin : value) (t : Z) : value :=
  VObject [ ("name", VString "Ada");
            ("role", VString "Lead");
            ("company", VString "Acme");
            ("relationship", VString "Manager");
            ("quote", VString "Great work");
            ("linkedin", linkedin);
            ("featured", VBool false);
            ("date", VDate (Some t)) ].

(** A uses entry with two items, the second before the first in the
    alphabet and with a key the schema does not name. *)
Definition uses_two_items : list (string * value) :=
  [ ("category", VString "stack");
    ("items", VArray [ VObject [ ("name", VString "Zod");
                                 ("description", VString "Schemas") ];
                       VObject [ ("since", VNumber (number_of_Z 2024));
                                 ("description", VString "Site framework");
                                 ("name", VString "Astro") ] ]);
    ("order", VNumber (number_of_Z 2)) ].

(** The data of [uses_two_items]. *)
Definition uses_two_items_data : value :=
  VObject
    [ ("category", VString "stack");
      ("items", VArray [ VObject [ ("name", VString "Zod");
                                   ("description", VString "Schemas") ];
                         VObject [ ("name", VString "Astro");
                                   ("description", VString "Site framework") ] ]);
      ("order", VNumber (number_of_Z 2)) ].

End Shapes.

(* ================================================================== *)
(** ** The host functions on the inputs the standards fix *)

Module HostFacts.
Import JS.

Example epoch_day : parse_iso_utc "1970-01-01" = Some 0%Z.
Proof. reflexivity. Qed.

Example leap_day_last_millisecond :
  parse_iso_utc "2000-02-29T23:59:59.999Z" = Some 951868799999%Z.
Proof. reflexivity. Qed.

Example no_thirtieth_of_february : parse_iso_utc "2023-02-30" = None.
Proof. reflexivity. Qed.

Example month_form_is_its_first_day :
  parse_iso_utc "2023-05" = parse_iso_utc "2023-05-01".
Proof. reflexivity. Qed.

(** The Gregorian calendar repeats every 400 years, 146097 days. *)
Lemma MakeDay_400_years (y m d : Z) :
  MakeDay (y + 400) m d = (MakeDay y m d + 146097)%Z.
Proof.
  unfold MakeDay.
  assert (E : forall a, ((a + 400) / 400 = a / 400 + 1)%Z).
  { intros a. replace (a + 400)%Z with (a + 1 * 400)%Z by lia.
    now rewrite Z.div_add by lia. }
  assert (Y : forall a, (a + 400 - (a / 400 + 1) * 400 = a - a / 400 * 400)%Z)
    by (intros; lia).
  destruct (m <=? 2)%Z; cbv zeta.
  - replace (y + 400 - 1)%Z with (y - 1 + 400)%Z by lia. rewrite E, Y. lia.
  - rewrite E, Y. lia.
Qed.

(** Days follow one another within a month. *)
Lemma MakeDay_next_day (y m d : Z) :
  MakeDay y m (d + 1) = (MakeDay y m d + 1)%Z.
Proof. unfold MakeDay. lia. Qed.


(** [new URL] accepts no input without a scheme. *)
Lemma URL_ok_has_scheme (h : Host) (s : string) :
  URL_ok h s = true -> has_scheme s = true.
Proof. unfold URL_ok. intros H. now apply andb_true_iff in H. Qed.

Example scheme_after_leading_space : has_scheme " https://example.com" = true.
Proof. reflexivity. Qed.

Example no_scheme_without_colon : has_scheme "linkedin.com/in/someone" = false.
Proof. reflexivity. Qed.

Example scheme_starts_with_a_letter : has_scheme "1a:b" = false.
Proof. reflexivity. Qed.

End HostFacts.

(* ================================================================== *)
(** ** How an object schema reports *)

Module ObjectFacts.
Import JS Zod Report.

Section WithHost.
Variable h : Host.

Lemma parse_object_pairs (shape : list (string * ZodType))
      (o : list (string * value)) :
  _parse h (ZodObject shape) (VObject o)
  = finishObject (mergeObjectSync (pairs_of h o shape)).
Proof.
  cbn [_parse]. do 2 f_equal.
  induction shape as [|[k s] rest IH]; cbn [pairs_of]; [reflexivity|].
  now rewrite IH.
Qed.

Lemma merge_issues (o : list (string * value))
      (shape : list (string * ZodType)) :
  snd (mergeObjectSync (pairs_of h o shape)) = field_issues h o shape.
Proof.
  unfold field_issues.
  induction shape as [|[k s] rest IH]; cbn [pairs_of mergeObjectSync flat_map fst snd];
    [reflexivity|].
  destruct (mergeObjectSync (pairs_of h o rest)) as [kvs errs].
  cbn [snd] in IH. subst errs.
  destruct (_parse h s (get o k)) as [v|l]; cbn [issues_of map app snd].
  - destruct v; try destruct (has o k); reflexivity.
  - reflexivity.
Qed.

(** An object schema raises exactly the issues of its fields. *)
Lemma object_issues (shape : list (string * ZodType))
      (o : list (string * value)) :
  issues_of (_parse h (ZodObject shape) (VObject o)) = field_issues h o shape.
Proof.
  rewrite parse_object_pairs, <- merge_issues.
  unfold finishObject.
  destruct (snd (mergeObjectSync (pairs_of h o shape))); reflexivity.
Qed.

Lemma object_failure_iff (shape : list (string * ZodType))
      (o : list (string * value)) :
  field_issues h o shape <> [] ->
  _parse h (ZodObject shape) (VObject o) = Failure (field_issues h o shape).
Proof.
  intros Hne. rewrite parse_object_pairs. unfold finishObject.
  rewrite merge_issues.
  destruct (field_issues h o shape); [contradiction|reflexivity].
Qed.

Lemma object_success (shape : list (string * ZodType))
      (o : list (string * value)) :
  field_issues h o shape = [] ->
  _parse h (ZodObject shape) (VObject o)
  = Success (VObject (fst (mergeObjectSync (pairs_of h o shape)))).
Proof.
  intros He. rewrite parse_object_pairs. unfold finishObject.
  rewrite merge_issues, He. reflexivity.
Qed.

Lemma field_issue_in (shape : list (string * ZodType))
      (o : list (string * value)) k s i :
  In (k, s) shape ->
  In i (issues_of (_parse h s (get o k))) ->
  In (under (Key k) i) (field_issues h o shape).
Proof.
  intros Hin Hi. unfold field_issues. apply in_flat_map.
  exists (k, s). split; [assumption|]. cbn [fst snd].
  now apply in_map.
Qed.

(** A field with an issue makes the whole object fail, and the issue
    is in the report. *)
Lemma object_reports_field (shape : list (string * ZodType))
      (o : list (string * value)) k s i :
  In (k, s) shape ->
  In i (issues_of (_parse h s (get o k))) ->
  exists errs,
    _parse h (ZodObject shape) (VObject o) = Failure errs
    /\ In (under (Key k) i) errs.
Proof.
  intros Hin Hi.
  pose proof (field_issue_in shape o k s i Hin Hi) as H.
  exists (field_issues h o shape). split; [|assumption].
  apply object_failure_iff. intros E. rewrite E in H. contradiction.
Qed.

Lemma fields_valid_no_issues (shape : list (string * ZodType))
      (o : list (string * value)) :
  (forall k s, In (k, s) shape -> is_success (_parse h s (get o k)) = true) ->
  field_issues h o shape = [].
Proof.
  unfold field_issues.
  induction shape as [|[k s] rest IH]; intros Hall; cbn [flat_map fst snd];
    [reflexivity|].
  rewrite IH by (intros; apply Hall; now right).
  specialize (Hall k s (or_introl eq_refl)).
  destruct (_parse h s (get o k)); [reflexivity|discriminate].
Qed.

(** The issues below one key are those of the fields with that key. *)
Lemma issues_at_fields (f : string) (shape : list (string * ZodType))
      (o : list (string * value)) :
  issues_at f (field_issues h o shape)
  = flat_map (fun ks => if String.eqb (fst ks) f
                        then map (under (Key (fst ks)))
                                 (issues_of (_parse h (snd ks) (get o (fst ks))))
                        else [])
             shape.
Proof.
  unfold issues_at, field_issues.
  induction shape as [|[k s] rest IH]; cbn [flat_map fst snd]; [reflexivity|].
  rewrite filter_app, IH. f_equal.
  generalize (issues_of (_parse h s (get o k))) as l.
  induction l as [|i l IHl]; cbn [map filter under path].
  - now destruct (String.eqb k f).
  - rewrite IHl. now destruct (String.eqb k f).
Qed.

(** Reading a key of the output of a valid object: the data of the
    field's schema, [undefined] for a key outside the shape. *)
Lemma output_get (shape : list (string * ZodType))
      (o : list (string * value)) (key : string) :
  NoDup (keys shape) ->
  get (fst (mergeObjectSync (pairs_of h o shape))) key
  = match shape_get shape key with
    | Some s => match _parse h s (get o key) with
                | Success v => v
                | Failure _ => VUndefined
                end
    | None => VUndefined
    end.
Proof.
  induction shape as [|[k s] rest IH]; intros Hnd;
    cbn [pairs_of mergeObjectSync shape_get keys map fst] in *;
    [reflexivity|].
  inversion Hnd as [|? ? Hnotin Hnd']; subst.
  specialize (IH Hnd').
  destruct (mergeObjectSync (pairs_of h o rest)) as [kvs errs].
  cbn [fst] in IH.
  assert (Hrest : String.eqb k key = true -> get kvs key = VUndefined).
  { intros E. apply String.eqb_eq in E. subst key. rewrite IH.
    destruct (shape_get rest k) eqn:Hg; [|reflexivity].
    exfalso. apply Hnotin. clear - Hg.
    induction rest as [|[k' s'] rest IH]; cbn in *; [discriminate|].
    destruct (String.eqb k' k) eqn:E.
    - left. now apply String.eqb_eq.
    - right. now apply IH. }
  destruct (String.eqb k key) eqn:E.
  - specialize (Hrest eq_refl).
    apply String.eqb_eq in E. subst key.
    destruct (_parse h s (get o k)) as [v|l]; cbn [fst].
    + destruct v; try destruct (has o k); cbn [get fst];
        rewrite ?String.eqb_refl; try reflexivity; assumption.
    + assumption.
  - destruct (_parse h s (get o k)) as [v|l]; cbn [fst].
    + destruct v; try destruct (has o k); cbn [get fst];
        rewrite ?E; assumption.
    + assumption.
Qed.

(** The output of an object schema has no key outside the shape. *)
Lemma output_has (shape : list (string * ZodType))
      (o : list (string * value)) (key : string) :
  shape_get shape key = None ->
  has (fst (mergeObjectSync (pairs_of h o shape))) key = false.
Proof.
  induction shape as [|[k s] rest IH];
    cbn [pairs_of mergeObjectSync shape_get fst]; [reflexivity|].
  destruct (String.eqb k key) eqn:E; [discriminate|]. intros Hg.
  specialize (IH Hg).
  destruct (mergeObjectSync (pairs_of h o rest)) as [kvs errs].
  cbn [fst] in IH.
  destruct (_parse h s (get o k)) as [v|l]; cbn [fst].
  - destruct v; try destruct (has o k); cbn [has fst]; rewrite ?E; assumption.
  - assumption.
Qed.



End WithHost.



End ObjectFacts.

(* ================================================================== *)
(** ** Validation of an entry *)

Module EntryFacts.
Import JS Zod Content Report HostFacts ObjectFacts.

Lemma validate_object (h : Host) (k : CollectionName) (o : list (string * value)) :
  validate h k (VObject o) = _parse h (ZodObject (shape_of k)) (VObject o).
Proof. destruct k; reflexivity. Qed.

(** An issue of a field is an issue of the entry. *)
Lemma validate_reports_field (h : Host) (k : CollectionName)
      (o : list (string * value)) key s i :
  In (key, s) (shape_of k) ->
  In i (issues_of (_parse h s (get o key))) ->
  exists errs,
    validate h k (VObject o) = Failure errs /\ In (under (Key key) i) errs.
Proof.
  intros Hin Hi. rewrite validate_object.
  now apply object_reports_field with (s := s).
Qed.

(** The issues below a key of a collection's schema. *)
Lemma issues_at_validate (h : Host) (k : CollectionName)
      (o : list (string * value)) (f : string) :
  issues_at f (issues_of (validate h k (VObject o)))
  = flat_map (fun ks => if String.eqb (fst ks) f
                        then map (under (Key (fst ks)))
                                 (issues_of (_parse h (snd ks) (get o (fst ks))))
                        else [])
             (shape_of k).
Proof.
  rewrite validate_object, object_issues. apply issues_at_fields.
Qed.

(** No schema fails without an issue. *)
Lemma failure_has_issue (h : Host) (t : ZodType) (v : value) :
  _parse h t v <> Failure [].
Proof.
  revert v.
  induction t as [url| | | |values|element IH|sh|inner IH|inner IH d];
    intros v; cbn [_parse].
  - destruct v; try discriminate.
    destruct url; [destruct (URL_ok h s)|]; discriminate.
  - destruct (getParsedType v); discriminate.
  - destruct v; discriminate.
  - destruct (new_Date h v); discriminate.
  - destruct v; try discriminate. destruct (includes values s); discriminate.
  - destruct v; try discriminate. unfold finish.
    destruct (snd (mergeArray 0 (map (_parse h element) elems))); discriminate.
  - destruct v; try discriminate. unfold finishObject.
    match goal with |- context [snd ?m] => destruct (snd m) end; discriminate.
  - destruct v; try discriminate; apply IH.
  - destruct v; apply IH.
Qed.

Lemma no_issues_field_success (h : Host) (shape : list (string * ZodType))
      (o : list (string * value)) k s :
  field_issues h o shape = [] ->
  In (k, s) shape ->
  is_success (_parse h s (get o k)) = true.
Proof.
  unfold field_issues. intros He Hin.
  destruct (_parse h s (get o k)) as [v|l] eqn:Hp; [reflexivity|].
  destruct l as [|i l]; [now apply failure_has_issue in Hp|].
  exfalso.
  assert (Hi : In (under (Key k) i) []); [|exact Hi].
  rewrite <- He. apply in_flat_map. exists (k, s). split; [assumption|].
  cbn [fst snd]. rewrite Hp. cbn. now left.
Qed.

(** A valid object: no field has an issue, and the data is the merged
    object. *)
Lemma validate_success_inv (h : Host) (k : CollectionName)
      (o : list (string * value)) (out : value) :
  validate h k (VObject o) = Success out ->
  field_issues h o (shape_of k) = []
  /\ out = VObject (fst (mergeObjectSync (pairs_of h o (shape_of k)))).
Proof.
  rewrite validate_object. intros Hs.
  assert (He : field_issues h o (shape_of k) = []).
  { rewrite <- object_issues, Hs. reflexivity. }
  split; [assumption|].
  rewrite (object_success h _ _ He) in Hs. now inversion Hs.
Qed.

Lemma shapes_no_duplicate_key (k : CollectionName) : NoDup (keys (shape_of k)).
Proof.
  destruct k; cbn;
    repeat (constructor; [cbn; intuition discriminate|]); constructor.
Qed.

(** Reading a key of the data of a valid entry. *)
Lemma validate_success_get (h : Host) (k : CollectionName)
      (o : list (string * value)) (out : value) (key : string) (s : ZodType) :
  validate h k (VObject o) = Success out ->
  shape_get (shape_of k) key = Some s ->
  _parse h s (get o key) = Success (prop out key).
Proof.
  intros Hs Hg.
  destruct (validate_success_inv h k o out Hs) as [He ->].
  cbn [prop]. rewrite output_get by apply shapes_no_duplicate_key.
  rewrite Hg.
  assert (Hin : In (key, s) (shape_of k)).
  { clear - Hg. induction (shape_of k) as [|[k' s'] rest IH]; cbn in *; [discriminate|].
    destruct (String.eqb k' key) eqn:E.
    - apply String.eqb_eq in E. inversion Hg; subst. now left.
    - right. now apply IH. }
  pose proof (no_issues_field_success h _ o key s He Hin) as Hok.
  destruct (_parse h s (get o key)); [reflexivity|discriminate].
Qed.

(** What the schema of a URL field lets through: [undefined], or a string
    that [new URL] accepts, unchanged. *)
Lemma url_schema_accepts (h : Host) (v v' : value) :
  _parse h (ZodOptional z_string_url) v = Success v' ->
  v' = v /\ (v = VUndefined
             \/ exists u, v = VString u /\ has_scheme u = true /\ URL_ok h u = true).
Proof.
  destruct v; cbn; try discriminate.
  - intros E. inversion E. split; [reflexivity|now left].
  - destruct (URL_ok h s) eqn:Hu; [|discriminate].
    intros E. inversion E. split; [reflexivity|]. right. exists s.
    repeat split; try assumption.
    now apply URL_ok_has_scheme with (h := h).
Qed.

(** Issues below the top level come with their full path, all of them. *)
Example nested_mistakes_reported (h : Host) :
  validate h projects (VObject Samples.project_nested_mistakes)
  = Failure
      [ mkIssue [Key "constraints"; Index 0]
                (invalid_type (ExpType PTstring) PTnumber);
        mkIssue [Key "constraints"; Index 2]
                (invalid_type (ExpType PTstring) PTnull);
        mkIssue [Key "impact"; Key "qualitative"]
                (invalid_type (ExpType PTstring) PTundefined) ].
Proof. reflexivity. Qed.

End EntryFacts.

(* ================================================================== *)
(** ** Properties of the registry and of the schemas *)

Import JS Zod Content Samples Report ObjectFacts EntryFacts.

(** The issues an entry reports at one key, with the shape unfolded. *)
Ltac field_report :=
  rewrite issues_at_validate; cbn -[_parse get includes]; rewrite ?app_nil_r.

(** Case analysis over the fields of a shape given as [In (k, s) shape]. *)
Ltac each_field Hin tac :=
  cbn in Hin;
  repeat (destruct Hin as [Hin|Hin];
          [inversion Hin; subst; clear Hin; tac|]);
  try contradiction.



(** C2, as the code has it.  [year], [teamSize] and [order] are
    [z.number()]: the issues a project or uses entry reports below these
    keys are none when the value is a Number other than NaN, whole or
    not (and, for the optional [teamSize] and project [order], when the
    value is [undefined]), and otherwise the one [invalid_type] issue that
    expected a number; a numeric string is such a failure.  The sample
    project validates with any Number but NaN as its [year]. *)
Theorem numeric_fields_accept_any_number (h : Host) (o : list (string * value)) :
  issues_at "year" (issues_of (validate h projects (VObject o)))
  = match getParsedType (get o "year") with
    | PTnumber => []
    | pt => [mkIssue [Key "year"] (invalid_type (ExpType PTnumber) pt)]
    end
  /\ issues_at "teamSize" (issues_of (validate h projects (VObject o)))
     = match getParsedType (get o "teamSize") with
       | PTnumber | PTundefined => []
       | pt => [mkIssue [Key "teamSize"] (invalid_type (ExpType PTnumber) pt)]
       end
  /\ issues_at "order" (issues_of (validate h projects (VObject o)))
     = match getParsedType (get o "order") with
       | PTnumber | PTundefined => []
       | pt => [mkIssue [Key "order"] (invalid_type (ExpType PTnumber) pt)]
       end
  /\ issues_at "order" (issues_of (validate h uses (VObject o)))
     = match getParsedType (get o "order") with
       | PTnumber => []
       | pt => [mkIssue [Key "order"] (invalid_type (ExpType PTnumber) pt)]
       end
  /\ (forall n,
        is_success (validate h projects (VObject (project_with_year (VNumber n))))
        = match n with S754_nan => false | _ => true end)
  /\ is_success (validate h projects (VObject project_fractional_year)) = true
  /\ validate h projects (VObject project_string_year)
     = Failure [mkIssue [Key "year"] (invalid_type (ExpType PTnumber) PTstring)].
Proof.
  repeat split.
  - field_report. cbn [_parse]. destruct (get o "year") as [| | |[]| | | |]; reflexivity.
  - field_report. cbn [_parse].
    destruct (get o "teamSize") as [| | |[]| | | |]; reflexivity.
  - field_report. cbn [_parse].
    destruct (get o "order") as [| | |[]| | | |]; reflexivity.
  - field_report. cbn [_parse]. destruct (get o "order") as [| | |[]| | | |]; reflexivity.
  - intros n. now destruct n.
Qed.

(** C2, counterexample.  A project entry with [year: 2023.5] validates,
    and 2023.5 is not an integer. *)
Lemma fractional_year_is_accepted :
  get project_fractional_year "year" = VNumber (number_of 4047 (-1))
  /\ Number_isInteger (number_of 4047 (-1)) = false
  /\ is_success (validate strict_host projects (VObject project_fractional_year)) = true.
Proof. repeat split. Qed.

(** C3, as the code has it.  [date] is [z.coerce.date()], the time value of
    [new Date(value)]:
    - a valid journey entry carries that time value as its [date]; for
      [null] and for [false] it is 0, the epoch;
    - ["2023-05-01"] and ["2023-05-01T00:00:00.000Z"] are the same time
      value on every host, and two entries that differ only in which of
      the two they give validate to the same result;
    - a string that [Date.parse] rejects, and a missing [date], fail with
      an [invalid_date] issue at [date]. *)
Theorem journey_date_coercion (h : Host) (o : list (string * value)) :
  (forall out,
      validate h journey (VObject o) = Success out ->
      exists t, new_Date h (get o "date") = Some t
                /\ prop out "date" = VDate (Some t))
  /\ (forall out,
        get o "date" = VNull \/ get o "date" = VBool false ->
        validate h journey (VObject o) = Success out ->
        prop out "date" = VDate (Some 0%Z))
  /\ Date_parse h "2023-05-01" = Some 1682899200000%Z
  /\ Date_parse h "2023-05-01T00:00:00.000Z" = Some 1682899200000%Z
  /\ validate h journey (VObject (("date", VString "2023-05-01") :: o))
     = validate h journey (VObject (("date", VString "2023-05-01T00:00:00.000Z") :: o))
  /\ (forall s,
        get o "date" = VString s ->
        Date_parse h s = None ->
        exists errs,
          validate h journey (VObject o) = Failure errs
          /\ In (mkIssue [Key "date"] invalid_date) errs)
  /\ (get o "date" = VUndefined ->
      exists errs,
        validate h journey (VObject o) = Failure errs
        /\ In (mkIssue [Key "date"] invalid_date) errs).
Proof.
  repeat split.
  - intros out Hs.
    pose proof (validate_success_get h journey o out "date" ZodCoerceDate Hs eq_refl) as Hp.
    cbn [_parse] in Hp.
    destruct (new_Date h (get o "date")) as [t|]; [|discriminate].
    exists t. split; [reflexivity|]. now inversion Hp.
  - intros out Hd Hs.
    pose proof (validate_success_get h journey o out "date" ZodCoerceDate Hs eq_refl) as Hp.
    destruct Hd as [Hd|Hd]; rewrite Hd in Hp; cbn in Hp; now inversion Hp.
  - intros s Hd Hn.
    apply (validate_reports_field h journey o "date" ZodCoerceDate
                                  (mkIssue [] invalid_date)).
    + cbn; tauto.
    + rewrite Hd. cbn [_parse new_Date]. rewrite Hn. cbn. tauto.
  - intros Hd.
    apply (validate_reports_field h journey o "date" ZodCoerceDate
                                  (mkIssue [] invalid_date)).
    + cbn; tauto.
    + rewrite Hd. cbn. tauto.
Qed.

Lemma journey_date_coercion_witness :
  exists errs,
    validate strict_host journey (VObject journey_bad_date) = Failure errs
    /\ In (mkIssue [Key "date"] invalid_date) errs.
Proof.
  apply (proj1 (proj2 (proj2 (proj2 (proj2 (proj2
           (journey_date_coercion strict_host journey_bad_date))))))
         "yesterday"); reflexivity.
Defined.

(** C3, counterexample.  A journey entry with [date: false], and one with
    [date: null], is not rejected: each validates, with the epoch as its
    date. *)
Lemma false_and_null_dates_are_the_epoch :
  validate strict_host journey (VObject journey_false_date)
  = Success (VObject [ ("date", VDate (Some 0%Z));
                       ("title", VString "First dashboard");
                       ("type", VString "milestone");
                       ("description", VString "Shipped it") ])
  /\ validate strict_host journey (VObject journey_null_date)
     = Success (VObject [ ("date", VDate (Some 0%Z));
                          ("title", VString "First dashboard");
                          ("type", VString "milestone");
                          ("description", VString "Shipped it") ]).
Proof. split; reflexivity. Qed.

(** C4. A value outside the closed set of an enumeration field makes the
    entry fail; nothing is replaced by a member of the set.  A journey
    [type], a project [status] or a uses [category] that is a string
    outside the set fails with an [invalid_enum_value] issue at the field;
    a [status] that is present and not a string fails with an
    [invalid_type] issue at [status].  The issues an entry reports at
    [type] and at [status] are given in full: [status] raises none only
    for a member of its set or when it is [undefined], the one case in
    which the default [completed] is taken. *)
Theorem enum_fields_closed (h : Host) (o : list (string * value)) :
  issues_at "type" (issues_of (validate h journey (VObject o)))
  = match get o "type" with
    | VString s =>
        if includes ["milestone"; "learning"; "transition"] s then []
        else [mkIssue [Key "type"]
                (invalid_enum_value ["milestone"; "learning"; "transition"] s)]
    | v => [mkIssue [Key "type"]
              (invalid_type (ExpOneOf ["milestone"; "learning"; "transition"])
                            (getParsedType v))]
    end
  /\ issues_at "status" (issues_of (validate h projects (VObject o)))
     = match get o "status" with
       | VUndefined => []
       | VString s =>
           if includes ["completed"; "ongoing"; "archived"] s then []
           else [mkIssue [Key "status"]
                   (invalid_enum_value ["completed"; "ongoing"; "archived"] s)]
       | v => [mkIssue [Key "status"]
                 (invalid_type (ExpOneOf ["completed"; "ongoing"; "archived"])
                               (getParsedType v))]
       end
  /\
  (forall s,
      get o "type" = VString s ->
      includes ["milestone"; "learning"; "transition"] s = false ->
      exists errs,
        validate h journey (VObject o) = Failure errs
        /\ In (mkIssue [Key "type"]
                 (invalid_enum_value ["milestone"; "learning"; "transition"] s)) errs)
  /\ (forall s,
        get o "status" = VString s ->
        includes ["completed"; "ongoing"; "archived"] s = false ->
        exists errs,
          validate h projects (VObject o) = Failure errs
          /\ In (mkIssue [Key "status"]
                   (invalid_enum_value ["completed"; "ongoing"; "archived"] s)) errs)
  /\ (forall s,
        get o "category" = VString s ->
        includes ["tools"; "stack"] s = false ->
        exists errs,
          validate h uses (VObject o) = Failure errs
          /\ In (mkIssue [Key "category"]
                   (invalid_enum_value ["tools"; "stack"] s)) errs)
  /\ (get o "status" <> VUndefined ->
      (forall s, get o "status" <> VString s) ->
      exists errs,
        validate h projects (VObject o) = Failure errs
        /\ In (mkIssue [Key "status"]
                 (invalid_type (ExpOneOf ["completed"; "ongoing"; "archived"])
                               (getParsedType (get o "status")))) errs).
Proof.
  split; [|split].
  { field_report. cbn [_parse].
    destruct (get o "type") as [| | |n|s| | |]; try destruct n; try reflexivity.
    now destruct (includes _ s). }
  { field_report. cbn [_parse].
    destruct (get o "status") as [| | |n|s| | |]; try destruct n; try reflexivity.
    now destruct (includes _ s). }
  repeat split.
  - intros s Hg Hs.
    apply (validate_reports_field h journey o "type"
             (ZodEnum ["milestone"; "learning"; "transition"])
             (mkIssue [] (invalid_enum_value ["milestone"; "learning"; "transition"] s))).
    + cbn; tauto.
    + rewrite Hg. cbn [_parse]. rewrite Hs. cbn. tauto.
  - intros s Hg Hs.
    apply (validate_reports_field h projects o "status"
             (ZodDefault (ZodEnum ["completed"; "ongoing"; "archived"])
                         (VString "completed"))
             (mkIssue [] (invalid_enum_value ["completed"; "ongoing"; "archived"] s))).
    + cbn; tauto.
    + rewrite Hg. cbn [_parse]. rewrite Hs. cbn. tauto.
  - intros s Hg Hs.
    apply (validate_reports_field h uses o "category"
             (ZodEnum ["tools"; "stack"])
             (mkIssue [] (invalid_enum_value ["tools"; "stack"] s))).
    + cbn; tauto.
    + rewrite Hg. cbn [_parse]. rewrite Hs. cbn. tauto.
  - intros Hu Hs.
    apply (validate_reports_field h projects o "status"
             (ZodDefault (ZodEnum ["completed"; "ongoing"; "archived"])
                         (VString "completed"))
             (mkIssue [] (invalid_type (ExpOneOf ["completed"; "ongoing"; "archived"])
                                       (getParsedType (get o "status"))))).
    + cbn; tauto.
    + destruct (get o "status") as [| | |n|s| | |] eqn:E;
        try (now contradiction Hu); try (now contradiction (Hs s));
        try destruct n; cbn; tauto.
Qed.

Lemma enum_fields_closed_witness :
  (exists errs,
      validate strict_host journey (VObject journey_bad_type) = Failure errs
      /\ In (mkIssue [Key "type"]
               (invalid_enum_value ["milestone"; "learning"; "transition"] "promotion"))
            errs)
  /\ (exists errs,
        validate strict_host projects (VObject project_bad_status) = Failure errs
        /\ In (mkIssue [Key "status"]
                 (invalid_enum_value ["completed"; "ongoing"; "archived"] "done"))
              errs).
Proof.
  split.
  - apply (proj1 (proj2 (proj2 (enum_fields_closed strict_host journey_bad_type)))
                 "promotion"); reflexivity.
  - apply (proj1 (proj2 (proj2 (proj2
             (enum_fields_closed strict_host project_bad_status)))) "done");
      reflexivity.
Defined.

(** C5. A project entry without [featured] and without [status], whose
    other fields are valid, validates, and its data has [featured = false]
    and [status = "completed"]. *)
Theorem omitted_featured_and_status_default (h : Host) (o : list (string * value)) :
  get o "featured" = VUndefined ->
  get o "status" = VUndefined ->
  (forall key s,
      In (key, s) projectsShape ->
      key <> "featured" -> key <> "status" ->
      is_success (_parse h s (get o key)) = true) ->
  exists out,
    validate h projects (VObject o) = Success out
    /\ prop out "featured" = VBool false
    /\ prop out "status" = VString "completed".
Proof.
  intros Hf Hs Hother.
  assert (Hall : forall key s, In (key, s) projectsShape ->
                               is_success (_parse h s (get o key)) = true).
  { intros key s Hin.
    each_field Hin ltac:(first [ rewrite Hf; reflexivity
                               | rewrite Hs; reflexivity
                               | apply Hother; [cbn; tauto|discriminate|discriminate] ]). }
  pose proof (fields_valid_no_issues h projectsShape o Hall) as He.
  pose proof (object_success h projectsShape o He) as Hv.
  rewrite <- (validate_object h projects) in Hv.
  eexists. split; [exact Hv|].
  pose proof (validate_success_get h projects o _ "featured" _ Hv eq_refl) as H1.
  pose proof (validate_success_get h projects o _ "status" _ Hv eq_refl) as H2.
  rewrite Hf in H1. rewrite Hs in H2. cbn [_parse] in H1, H2. cbn in H2.
  split; [now inversion H1|now inversion H2].
Qed.

Lemma omitted_featured_and_status_default_witness :
  exists out,
    validate strict_host projects (VObject project_required) = Success out
    /\ prop out "featured" = VBool false
    /\ prop out "status" = VString "completed".
Proof.
  apply (omitted_featured_and_status_default strict_host project_required).
  - reflexivity.
  - reflexivity.
  - intros key s Hin _ _. each_field Hin reflexivity.
Defined.

(** C6, as the code has it.  [githubUrl], [linkedin] and the [url] of a
    uses item are
    [z.string().url().optional()].  Such a field lets through only
    [undefined] or a string that [new URL] accepts, which needs a scheme,
    and the data is the input string itself.  A string that [new URL]
    rejects fails the entry with an [invalid_string] issue for the [url]
    check at the field; ["not-a-url"] is such a string on every host.
    Below [items] the issue carries the index of the item. *)
Theorem url_fields_reject_malformed (h : Host) :
  (shape_get projectsShape "githubUrl" = Some (ZodOptional z_string_url)
   /\ shape_get testimonialsShape "linkedin" = Some (ZodOptional z_string_url)
   /\ shape_get usesItemShape "url" = Some (ZodOptional z_string_url))
  /\ (forall v v',
        _parse h (ZodOptional z_string_url) v = Success v' ->
        v' = v /\ (v = VUndefined
                   \/ exists u, v = VString u /\ has_scheme u = true
                                /\ URL_ok h u = true))
  /\ (forall k f o u,
        In (k, f) url_fields ->
        get o f = VString u ->
        URL_ok h u = false ->
        exists errs,
          validate h k (VObject o) = Failure errs /\ In (not_a_url f) errs)
  /\ (forall k f o u out,
        In (k, f) url_fields ->
        get o f = VString u ->
        validate h k (VObject o) = Success out ->
        prop out f = VString u /\ URL_ok h u = true)
  /\ URL_ok h "not-a-url" = false
  /\ (forall o,
        get o "linkedin" = VString "not-a-url" ->
        exists errs,
          validate h testimonials (VObject o) = Failure errs
          /\ In (not_a_url "linkedin") errs)
  /\ (URL_ok h "https://astro.build" = true ->
      validate h uses (VObject uses_bad_item_url)
      = Failure [mkIssue [Key "items"; Index 1; Key "url"] invalid_string_url]).
Proof.
  assert (Hrej : forall k f o u,
             In (k, f) url_fields ->
             get o f = VString u ->
             URL_ok h u = false ->
             exists errs,
               validate h k (VObject o) = Failure errs /\ In (not_a_url f) errs).
  { intros k f o u Hin Hg Hu.
    apply (validate_reports_field h k o f (ZodOptional z_string_url)
                                  (mkIssue [] invalid_string_url)).
    - each_field Hin ltac:(cbn; tauto).
    - rewrite Hg. cbn. rewrite Hu. cbn. tauto. }
  split; [repeat split|]. split; [apply url_schema_accepts|].
  split; [exact Hrej|]. split; [|split; [reflexivity|split]].
  - intros k f o u out Hin Hg Hs.
    assert (Hp : _parse h (ZodOptional z_string_url) (get o f) = Success (prop out f)).
    { each_field Hin ltac:(now apply (validate_success_get h _ o out _ _ Hs)). }
    rewrite Hg in Hp. cbn in Hp.
    destruct (URL_ok h u); [|discriminate]. split; [now inversion Hp|reflexivity].
  - intros o Hg. apply (Hrej testimonials "linkedin" o "not-a-url").
    + cbn; tauto.
    + assumption.
    + reflexivity.
  - intros Hu. unfold validate. cbn -[URL_ok]. rewrite Hu. reflexivity.
Qed.

Lemma url_fields_reject_malformed_witness :
  exists errs,
    validate lax_host testimonials
             (VObject (testimonial_entry (VString "not-a-url"))) = Failure errs
    /\ In (not_a_url "linkedin") errs.
Proof.
  apply (proj1 (proj2 (proj2 (proj2 (proj2 (proj2
           (url_fields_reject_malformed lax_host))))))
         (testimonial_entry (VString "not-a-url"))).
  reflexivity.
Defined.

(** C7, as the code has it.  The uses entry
    [{category: "tools", items: [{name: "Editor", description: "Code editing"}], order: 1}]
    validates on every host.  In its data [items[0]] has the keys [name]
    and [description] only: the [url] key is not set, so that
    [items[0].url] reads as [undefined], not [null]; [order] is 1. *)
Theorem uses_example_validates (h : Host) :
  exists out,
    validate h uses (VObject uses_tools) = Success out
    /\ item (prop out "items") 0
       = VObject [ ("name", VString "Editor");
                   ("description", VString "Code editing") ]
    /\ prop (item (prop out "items") 0) "url" = VUndefined
    /\ prop out "category" = VString "tools"
    /\ prop out "order" = VNumber (number_of_Z 1).
Proof.
  eexists. split; [reflexivity|]. cbn. repeat split.
Qed.

(** C7, counterexample.  The data of the example has no [url] key in
    [items[0]]: the key is left out, not set to a marker. *)
Lemma uses_item_has_no_url_key :
  validate strict_host uses (VObject uses_tools)
  = Success (VObject
      [ ("category", VString "tools");
        ("items", VArray [ VObject [ ("name", VString "Editor");
                                     ("description", VString "Code editing") ] ]);
        ("order", VNumber (number_of_Z 1)) ])
  /\ has [ ("name", VString "Editor");
           ("description", VString "Code editing") ] "url" = false.
Proof. split; reflexivity. Qed.

(** C8. Each of the five pages of [pagesConfig] has a non-empty [title] and
    a non-empty [description]. *)
Theorem pagesConfig_title_description_non_empty (p : Pages.PageId) :
  In p Pages.all_pages
  /\ (0 < String.length (Pages.title (Pages.pagesConfig p)))%nat
  /\ (0 < String.length (Pages.description (Pages.pagesConfig p)))%nat.
Proof.
  destruct p; cbn; repeat split; try lia; tauto.
Qed.



(* ================================================================== *)
(** ** Facts about every schema *)

Module SchemaFacts.
Import JS Zod Content Report Shapes ObjectFacts EntryFacts.

(** Induction over schemas, with the fields of an object shape. *)
Lemma ZodType_fields_ind (P : ZodType -> Prop) :
  (forall url, P (ZodString url)) ->
  P ZodNumber -> P ZodBoolean -> P ZodCoerceDate ->
  (forall values, P (ZodEnum values)) ->
  (forall element, P element -> P (ZodArray element)) ->
  (forall shape, Forall (fun ks => P (snd ks)) shape -> P (ZodObject shape)) ->
  (forall inner, P inner -> P (ZodOptional inner)) ->
  (forall inner d, P inner -> P (ZodDefault inner d)) ->
  forall t, P t.
Proof.
  intros Hs Hn Hb Hd He Ha Ho Hopt Hdef.
  fix IH 1. intros [url| | | |values|element|shape|inner|inner d].
  - apply Hs.
  - apply Hn.
  - apply Hb.
  - apply Hd.
  - apply He.
  - apply Ha, IH.
  - apply Ho. revert shape. fix IHs 1. intros [|[k s] rest].
    + constructor.
    + constructor; [apply IH|apply IHs].
  - apply Hopt, IH.
  - apply Hdef, IH.
Qed.

Lemma shape_get_some_in (shape : list (string * ZodType)) key s :
  shape_get shape key = Some s -> In (key, s) shape.
Proof.
  induction shape as [|[k' s'] rest IH]; cbn; [discriminate|].
  destruct (String.eqb k' key) eqn:E.
  - apply String.eqb_eq in E. intros H. inversion H; subst. now left.
  - intros H. right. now apply IH.
Qed.

Lemma in_shape_get (shape : list (string * ZodType)) key s :
  NoDup (keys shape) -> In (key, s) shape -> shape_get shape key = Some s.
Proof.
  induction shape as [|[k' s'] rest IH]; cbn; [tauto|].
  intros Hnd [E|Hin]; inversion Hnd as [|? ? Hnotin Hnd']; subst.
  - inversion E; subst. now rewrite String.eqb_refl.
  - destruct (String.eqb k' key) eqn:E; [|now apply IH].
    apply String.eqb_eq in E. subst k'. exfalso. apply Hnotin.
    change key with (fst (key, s)). now apply in_map.
Qed.

Section WithHost.
Variable h : Host.

(** *** Arrays *)

Lemma mergeArray_issues (element : ZodType) (elems : list value) (i : nat) :
  snd (mergeArray i (map (_parse h element) elems))
  = element_issues h element i elems.
Proof.
  revert i. induction elems as [|x rest IH]; intros i; cbn; [reflexivity|].
  specialize (IH (S i)).
  destruct (mergeArray (S i) (map (_parse h element) rest)) as [vs errs].
  cbn [snd] in IH. subst errs.
  destruct (_parse h element x); reflexivity.
Qed.

Lemma mergeArray_data (element : ZodType) (elems : list value) (i : nat) :
  element_issues h element i elems = [] ->
  Forall2 (fun x y => _parse h element x = Success y)
          elems (fst (mergeArray i (map (_parse h element) elems))).
Proof.
  revert i. induction elems as [|x rest IH]; intros i; cbn; [constructor|].
  intros He. apply app_eq_nil in He. destruct He as [Hx Hrest].
  specialize (IH (S i) Hrest).
  destruct (mergeArray (S i) (map (_parse h element) rest)) as [vs errs].
  cbn [fst] in IH.
  destruct (_parse h element x) as [v|l] eqn:Hp.
  - cbn [fst]. now constructor.
  - cbn in Hx. destruct l; [|discriminate].
    now apply failure_has_issue in Hp.
Qed.

Lemma array_issues (element : ZodType) (elems : list value) :
  issues_of (_parse h (ZodArray element) (VArray elems))
  = element_issues h element 0 elems.
Proof.
  cbn [_parse]. unfold finish. rewrite mergeArray_issues.
  destruct (element_issues h element 0 elems); reflexivity.
Qed.

Lemma array_success_inv (element : ZodType) (v out : value) :
  _parse h (ZodArray element) v = Success out ->
  exists elems outs,
    v = VArray elems /\ out = VArray outs
    /\ Forall2 (fun x y => _parse h element x = Success y) elems outs.
Proof.
  destruct v; cbn [_parse]; try discriminate.
  unfold finish. intros Hs.
  pose proof (mergeArray_issues element elems 0) as Hi.
  pose proof (mergeArray_data element elems 0) as Hd.
  destruct (mergeArray 0 (map (_parse h element) elems)) as [vs errs].
  cbn [fst snd] in *. subst errs.
  destruct (element_issues h element 0 elems); [|discriminate].
  inversion Hs; subst. exists elems, vs. auto.
Qed.

Lemma array_of_successes (element : ZodType) (elems outs : list value) :
  Forall2 (fun x y => _parse h element x = Success y) elems outs ->
  _parse h (ZodArray element) (VArray elems) = Success (VArray outs).
Proof.
  intros HF. cbn [_parse]. unfold finish.
  enough (E : forall i, mergeArray i (map (_parse h element) elems) = (outs, []))
    by now rewrite E.
  induction HF as [|x y elems outs Hxy _ IH]; intros i; cbn; [reflexivity|].
  now rewrite IH, Hxy.
Qed.

(** *** What a schema hands back *)

(** Only [undefined] validates to [undefined]. *)
Lemma success_undefined (t : ZodType) (v : value) :
  _parse h t v = Success VUndefined -> v = VUndefined.
Proof.
  revert v. induction t as [url| | | |values|element IH|shape _|inner IH|inner d IH]
    using ZodType_fields_ind; intros v; cbn [_parse].
  - destruct v; try discriminate.
    destruct url; [destruct (URL_ok h s)|]; discriminate.
  - destruct v as [| | |[]| | | |]; discriminate.
  - destruct v; discriminate.
  - destruct (new_Date h v); discriminate.
  - destruct v; try discriminate. destruct (includes values s); discriminate.
  - destruct v; try discriminate. unfold finish.
    destruct (snd (mergeArray 0 (map (_parse h element) elems))); discriminate.
  - destruct v; try discriminate. unfold finishObject.
    match goal with |- context [snd ?m] => destruct (snd m) end; discriminate.
  - destruct v; try reflexivity; apply IH.
  - destruct v; try reflexivity; apply IH.
Qed.

(** A plain schema hands its input back. *)
Lemma plain_identity (t : ZodType) (v out : value) :
  plain t = true -> _parse h t v = Success out -> out = v.
Proof.
  revert v out.
  induction t as [url| | | |values|element IH|shape _|inner IH|inner d IH]
    using ZodType_fields_ind; intros v out Hp; cbn [plain] in Hp;
    try discriminate.
  - cbn [_parse]. destruct v; try discriminate.
    destruct url; [destruct (URL_ok h s)|]; try discriminate;
      intros E; now inversion E.
  - cbn [_parse]. destruct v as [| | |[]| | | |]; try discriminate;
      intros E; now inversion E.
  - cbn [_parse]. destruct v; try discriminate. intros E; now inversion E.
  - cbn [_parse]. destruct v; try discriminate.
    destruct (includes values s); try discriminate. intros E; now inversion E.
  - intros Hs. apply array_success_inv in Hs.
    destruct Hs as (elems & outs & -> & -> & HF). f_equal.
    induction HF as [|x y elems outs Hxy _ IHF]; [reflexivity|].
    rewrite (IH x y Hp Hxy). now f_equal.
  - cbn [_parse]. destruct v; try (intros E; now inversion E); now apply IH.
Qed.

(** *** What an object sets *)

Lemma output_has_key (shape : list (string * ZodType))
      (o : list (string * value)) (key : string) :
  NoDup (keys shape) ->
  has (fst (mergeObjectSync (pairs_of h o shape))) key
  = match shape_get shape key with
    | Some s => match _parse h s (get o key) with
                | Success VUndefined => has o key
                | Success _ => true
                | Failure _ => false
                end
    | None => false
    end.
Proof.
  induction shape as [|[k s] rest IH]; intros Hnd;
    cbn [pairs_of mergeObjectSync shape_get keys map fst] in *;
    [reflexivity|].
  inversion Hnd as [|? ? Hnotin Hnd']; subst.
  specialize (IH Hnd').
  pose proof (output_has h rest o key) as Hout.
  destruct (mergeObjectSync (pairs_of h o rest)) as [kvs errs].
  cbn [fst] in IH, Hout.
  destruct (String.eqb k key) eqn:E.
  - apply String.eqb_eq in E. subst key.
    assert (Hg : shape_get rest k = None).
    { destruct (shape_get rest k) eqn:Hg; [|reflexivity].
      exfalso. apply Hnotin. apply shape_get_some_in in Hg.
      change k with (fst (k, z)). now apply in_map. }
    specialize (Hout Hg).
    destruct (_parse h s (get o k)) as [v|l]; cbn [fst]; [|assumption].
    destruct v; try destruct (has o k) eqn:Hh; cbn [has fst];
      rewrite ?String.eqb_refl; try reflexivity; assumption.
  - destruct (_parse h s (get o k)) as [v|l]; cbn [fst]; [|assumption].
    destruct v; try destruct (has o k); cbn [has fst]; rewrite ?E; assumption.
Qed.

(** The keys of the data of a valid object are the keys of the shape that
    are set, in the order of the shape. *)
Lemma output_keys (shape : list (string * ZodType))
      (o : list (string * value)) :
  NoDup (keys shape) ->
  map fst (fst (mergeObjectSync (pairs_of h o shape)))
  = filter (has (fst (mergeObjectSync (pairs_of h o shape)))) (keys shape).
Proof.
  induction shape as [|[k s] rest IH]; intros Hnd;
    cbn [pairs_of mergeObjectSync keys map fst filter] in *; [reflexivity|].
  inversion Hnd as [|? ? Hnotin Hnd']; subst.
  specialize (IH Hnd').
  assert (Hk : has (fst (mergeObjectSync (pairs_of h o rest))) k = false).
  { apply output_has. destruct (shape_get rest k) eqn:Hg; [|reflexivity].
    exfalso. apply Hnotin. apply shape_get_some_in in Hg.
    change k with (fst (k, z)). now apply in_map. }
  destruct (mergeObjectSync (pairs_of h o rest)) as [kvs errs].
  cbn [fst] in IH, Hk.
  assert (Hset : forall v,
             map fst ((k, v) :: kvs)
             = (if has ((k, v) :: kvs) k then k :: filter (has ((k, v) :: kvs)) (map fst rest)
                else filter (has ((k, v) :: kvs)) (map fst rest))).
  { intros v. cbn [has map fst]. rewrite String.eqb_refl. f_equal.
    rewrite IH at 1. apply filter_ext_in. intros key Hin.
    destruct (String.eqb k key) eqn:E; [|reflexivity].
    apply String.eqb_eq in E. subst key. contradiction. }
  assert (Hskip : map fst kvs
                  = (if has kvs k then k :: filter (has kvs) (map fst rest)
                     else filter (has kvs) (map fst rest))).
  { rewrite Hk. exact IH. }
  destruct (_parse h s (get o k)) as [v|l]; cbn [fst]; [|exact Hskip].
  destruct v; try destruct (has o k); first [apply Hset|exact Hskip].
Qed.

Lemma distinct_NoDup (l : list string) : distinct l = true -> NoDup l.
Proof.
  induction l as [|x rest IH]; cbn; [constructor|].
  intros H. apply andb_true_iff in H. destruct H as [Hx Hr].
  constructor; [|now apply IH].
  intros Hin. apply negb_true_iff in Hx.
  clear - Hin Hx. induction rest as [|y rest IH]; cbn in *; [contradiction|].
  apply orb_false_iff in Hx. destruct Hx as [Hy Hr].
  destruct Hin as [->|Hin]; [now rewrite String.eqb_refl in Hy|now apply IH].
Qed.

Lemma distinct_keys_object (shape : list (string * ZodType)) :
  distinct_keys (ZodObject shape) = true ->
  NoDup (keys shape) /\ Forall (fun ks => distinct_keys (snd ks) = true) shape.
Proof.
  cbn [distinct_keys]. intros H. apply andb_true_iff in H.
  destruct H as [Hd Hall]. split; [now apply distinct_NoDup|].
  clear Hd. induction shape as [|[k s] rest IH]; constructor.
  - apply andb_true_iff in Hall. now destruct Hall.
  - apply IH. apply andb_true_iff in Hall. now destruct Hall.
Qed.

(** *** Validating validated data *)

Lemma merge_again (shape : list (string * ZodType))
      (o : list (string * value)) :
  NoDup (keys shape) ->
  field_issues h o shape = [] ->
  Forall (fun ks => forall v out, _parse h (snd ks) v = Success out ->
                                  _parse h (snd ks) out = Success out) shape ->
  forall sh,
    incl sh shape ->
    mergeObjectSync
      (pairs_of h (fst (mergeObjectSync (pairs_of h o shape))) sh)
    = mergeObjectSync (pairs_of h o sh).
Proof.
  intros Hnd He Hidem. induction sh as [|[k s] rest IH]; intros Hincl;
    cbn [pairs_of mergeObjectSync]; [reflexivity|].
  rewrite IH by (intros x Hx; apply Hincl; now right).
  assert (Hin : In (k, s) shape) by (apply Hincl; now left).
  pose proof (in_shape_get shape k s Hnd Hin) as Hg.
  pose proof (no_issues_field_success h shape o k s He Hin) as Hok.
  rewrite output_get, output_has_key, Hg by assumption.
  rewrite Forall_forall in Hidem. specialize (Hidem (k, s) Hin). cbn [snd] in Hidem.
  destruct (_parse h s (get o k)) as [v|l] eqn:Hp; [|discriminate].
  rewrite (Hidem _ _ Hp).
  destruct (mergeObjectSync (pairs_of h o rest)) as [kvs errs].
  destruct v; reflexivity.
Qed.

(** Data that a schema let through validates again, to itself. *)
Lemma parse_idempotent (t : ZodType) :
  distinct_keys t = true ->
  forall v out, _parse h t v = Success out -> _parse h t out = Success out.
Proof.
  induction t as [url| | | |values|element IH|shape IH|inner IH|inner d IH]
    using ZodType_fields_ind; intros Hk v out Hs.
  - assert (E : out = v) by (eapply plain_identity; [|exact Hs]; reflexivity).
    now subst out.
  - assert (E : out = v) by (eapply plain_identity; [|exact Hs]; reflexivity).
    now subst out.
  - assert (E : out = v) by (eapply plain_identity; [|exact Hs]; reflexivity).
    now subst out.
  - cbn [_parse] in *. destruct (new_Date h v); [|discriminate].
    inversion Hs; subst. reflexivity.
  - assert (E : out = v) by (eapply plain_identity; [|exact Hs]; reflexivity).
    now subst out.
  - apply array_success_inv in Hs. destruct Hs as (elems & outs & -> & -> & HF).
    apply array_of_successes. cbn [distinct_keys] in Hk.
    induction HF as [|x y elems outs Hxy _ IHF]; constructor; [|assumption].
    now apply (IH Hk x y).
  - destruct v; try discriminate.
    destruct (distinct_keys_object shape Hk) as [Hnd Hall].
    assert (He : field_issues h props shape = []).
    { rewrite <- object_issues, Hs. reflexivity. }
    rewrite (object_success h shape props He) in Hs. inversion Hs; subst out.
    rewrite parse_object_pairs.
    rewrite merge_again; try assumption.
    + rewrite <- parse_object_pairs. now apply object_success.
    + rewrite Forall_forall in *. intros ks Hin. apply IH; [assumption|].
      now apply Hall.
    + apply incl_refl.
  - cbn [distinct_keys] in Hk. cbn [_parse] in Hs.
    assert (Hin : forall w, _parse h inner w = Success out ->
                            _parse h (ZodOptional inner) out = Success out).
    { intros w Hw. cbn [_parse]. destruct out; try reflexivity; now apply (IH Hk w). }
    destruct v; try (now apply (Hin _ Hs)).
    inversion Hs; subst. reflexivity.
  - cbn [distinct_keys] in Hk. cbn [_parse] in Hs.
    assert (Hin : forall w, w <> VUndefined -> _parse h inner w = Success out ->
                            _parse h (ZodDefault inner d) out = Success out).
    { intros w Hw Hp. cbn [_parse].
      destruct out; try (now apply (IH Hk w)).
      apply success_undefined in Hp. contradiction. }
    destruct v; try (now apply (fun E => Hin _ E Hs)).
    cbn [_parse]. destruct out; try (now apply (IH Hk d)). assumption.
Qed.

End WithHost.

(** *** The part of the host a schema reaches *)

Lemma new_Date_same (h1 h2 : Host) (v : value) :
  same_dates h1 h2 -> new_Date h1 v = new_Date h2 v.
Proof.
  intros [Hp Ho]. destruct v; cbn [new_Date]; try reflexivity; try apply Ho.
  unfold Date_parse. destruct (parse_iso_utc s); [reflexivity|apply Hp].
Qed.

Lemma coerces_date_field (shape : list (string * ZodType)) k s :
  In (k, s) shape -> coerces_date s = true -> coerces_date (ZodObject shape) = true.
Proof.
  induction shape as [|[k' s'] rest IH]; cbn [In]; [tauto|].
  intros [E|Hin] Hs.
  - inversion E; subst. cbn. now rewrite Hs.
  - specialize (IH Hin Hs). cbn in *. rewrite IH. apply orb_true_r.
Qed.

Lemma checks_url_field (shape : list (string * ZodType)) k s :
  In (k, s) shape -> checks_url s = true -> checks_url (ZodObject shape) = true.
Proof.
  induction shape as [|[k' s'] rest IH]; cbn [In]; [tauto|].
  intros [E|Hin] Hs.
  - inversion E; subst. cbn. now rewrite Hs.
  - specialize (IH Hin Hs). cbn in *. rewrite IH. apply orb_true_r.
Qed.

(** Two hosts that agree on what a schema reaches give the same result. *)
Lemma parse_same_hosts (h1 h2 : Host) (t : ZodType) :
  (coerces_date t = true -> same_dates h1 h2) ->
  (checks_url t = true -> same_urls h1 h2) ->
  forall v, _parse h1 t v = _parse h2 t v.
Proof.
  induction t as [url| | | |values|element IH|shape IH|inner IH|inner d IH]
    using ZodType_fields_ind; intros Hd Hu v; try reflexivity.
  - cbn [_parse]. destruct v; try reflexivity. destruct url; [|reflexivity].
    unfold URL_ok. now rewrite (Hu eq_refl s).
  - cbn [_parse]. now rewrite (new_Date_same h1 h2 v (Hd eq_refl)).
  - cbn [_parse]. destruct v; try reflexivity. do 2 f_equal.
    apply map_ext. intros x. now apply IH.
  - destruct v; try reflexivity. rewrite !parse_object_pairs. do 2 f_equal.
    assert (Hall : forall k s, In (k, s) shape ->
                               forall w, _parse h1 s w = _parse h2 s w).
    { intros k s Hin. rewrite Forall_forall in IH. apply (IH (k, s) Hin).
      - intros Hs. apply Hd. now apply coerces_date_field with (k := k) (s := s).
      - intros Hs. apply Hu. now apply checks_url_field with (k := k) (s := s). }
    clear - Hall. induction shape as [|[k s] rest IHs]; cbn [pairs_of]; [reflexivity|].
    rewrite (Hall k s (or_introl eq_refl)). f_equal.
    apply IHs. intros k' s' Hin. apply (Hall k' s'). now right.
  - cbn [_parse]. destruct v; try reflexivity; now apply IH.
  - cbn [_parse]. destruct v; now apply IH.
Qed.

End SchemaFacts.

(* ================================================================== *)
(** ** Further facts about the entries of a collection *)

Module CollectionFacts.
Import JS Zod Content Report Shapes ObjectFacts EntryFacts SchemaFacts.

Lemma shapes_distinct_keys (k : CollectionName) :
  distinct_keys (schema (collections k)) = true.
Proof. destruct k; reflexivity. Qed.

(** The one field of a key among the fields of a shape. *)
Lemma flat_map_at_key {A : Type} (F : string * ZodType -> list A)
      (shape : list (string * ZodType)) key s :
  NoDup (keys shape) ->
  shape_get shape key = Some s ->
  flat_map (fun ks => if String.eqb (fst ks) key then F ks else []) shape
  = F (key, s).
Proof.
  induction shape as [|[k' s'] rest IH]; cbn [shape_get flat_map fst keys map];
    [discriminate|].
  intros Hnd Hg. inversion Hnd as [|? ? Hnotin Hnd']; subst.
  destruct (String.eqb k' key) eqn:E.
  - apply String.eqb_eq in E. subst k'. inversion Hg; subst s'.
    rewrite <- app_nil_r. f_equal.
    clear - Hnotin. induction rest as [|[k2 s2] rest IH]; cbn; [reflexivity|].
    destruct (String.eqb k2 key) eqn:E.
    + apply String.eqb_eq in E. subst k2. exfalso. apply Hnotin. now left.
    + apply IH. intros Hin. apply Hnotin. now right.
  - now apply IH.
Qed.

Lemma flat_map_no_key {A : Type} (F : string * ZodType -> list A)
      (shape : list (string * ZodType)) key :
  shape_get shape key = None ->
  flat_map (fun ks => if String.eqb (fst ks) key then F ks else []) shape = [].
Proof.
  induction shape as [|[k' s'] rest IH]; cbn [shape_get flat_map fst];
    [reflexivity|].
  destruct (String.eqb k' key); [discriminate|]. intros Hg. now apply IH.
Qed.

(** The issues at a key of the schema are those of its field. *)
Lemma validate_issues_at (h : Host) (k : CollectionName)
      (o : list (string * value)) key s :
  shape_get (shape_of k) key = Some s ->
  issues_at key (issues_of (validate h k (VObject o)))
  = map (under (Key key)) (issues_of (_parse h s (get o key))).
Proof.
  intros Hg. rewrite issues_at_validate.
  now rewrite (flat_map_at_key _ _ key s (shapes_no_duplicate_key k) Hg).
Qed.

(** A result is a success exactly when it has no issue. *)
Lemma is_success_no_issues (h : Host) (t : ZodType) (v : value) :
  is_success (_parse h t v)
  = match issues_of (_parse h t v) with [] => true | _ => false end.
Proof.
  destruct (_parse h t v) as [out|[|i l]] eqn:Hp; try reflexivity.
  now apply failure_has_issue in Hp.
Qed.

(** A schema that does not end in [.optional()] or [.default()] rejects
    [undefined]. *)
Lemma required_rejects_undefined (h : Host) (t : ZodType) :
  may_be_omitted t = false -> is_success (_parse h t VUndefined) = false.
Proof. destruct t as [[]| | | | | | | |]; try discriminate; reflexivity. Qed.

End CollectionFacts.

(* ================================================================== *)
(** ** Further properties of the schemas *)

Import Shapes SchemaFacts CollectionFacts.

(** X1. Validated data is a fixed point of validation: the data of a valid
    entry validates again, against the same collection, to itself. *)
Theorem validated_data_validates_to_itself (h : Host) (k : CollectionName)
        (raw out : value) :
  validate h k raw = Success out ->
  validate h k out = Success out.
Proof.
  unfold validate. apply parse_idempotent, shapes_distinct_keys.
Qed.

Lemma validated_data_validates_to_itself_witness :
  validate strict_host testimonials
    (VObject [ ("name", VString "Ada");
               ("role", VString "Lead");
               ("company", VString "Acme");
               ("relationship", VString "Manager");
               ("quote", VString "Great work");
               ("featured", VBool false);
               ("date", VDate (Some 1705276800000%Z)) ])
  = Success
      (VObject [ ("name", VString "Ada");
                 ("role", VString "Lead");
                 ("company", VString "Acme");
                 ("relationship", VString "Manager");
                 ("quote", VString "Great work");
                 ("featured", VBool false);
                 ("date", VDate (Some 1705276800000%Z)) ]).
Proof.
  apply (validated_data_validates_to_itself strict_host testimonials
           (VObject [ ("date", VString "2024-01-15");
                      ("quote", VString "Great work");
                      ("relationship", VString "Manager");
                      ("company", VString "Acme");
                      ("role", VString "Lead");
                      ("name", VString "Ada") ])).
  reflexivity.
Defined.

(** X2. An entry is valid exactly when the schema of every declared key
    accepts the value under that key: the fields are checked one by one,
    none depending on another. *)
Theorem valid_iff_every_field_valid (h : Host) (k : CollectionName)
        (o : list (string * value)) :
  is_success (validate h k (VObject o))
  = forallb (fun ks => is_success (_parse h (snd ks) (get o (fst ks))))
            (shape_of k).
Proof.
  rewrite validate_object, is_success_no_issues, object_issues.
  unfold field_issues.
  induction (shape_of k) as [|[key s] rest IH]; cbn [flat_map forallb fst snd];
    [reflexivity|].
  rewrite <- IH, is_success_no_issues.
  destruct (issues_of (_parse h s (get o key))); reflexivity.
Qed.

(** X3. The issues an entry reports at a key of its schema are the issues
    of that key's schema on that key's value, each below the key; so two
    entries with the same value under a key report the same issues
    there, whatever else they hold. *)
Theorem issues_at_a_key_are_local (h : Host) (k : CollectionName)
        (key : string) (s : ZodType) :
  shape_get (shape_of k) key = Some s ->
  (forall o,
      issues_at key (issues_of (validate h k (VObject o)))
      = map (under (Key key)) (issues_of (_parse h s (get o key))))
  /\ (forall o1 o2,
        get o1 key = get o2 key ->
        issues_at key (issues_of (validate h k (VObject o1)))
        = issues_at key (issues_of (validate h k (VObject o2)))).
Proof.
  intros Hg. split.
  - intros o. now apply validate_issues_at.
  - intros o1 o2 E. rewrite !(validate_issues_at h k _ key s Hg). now rewrite E.
Qed.

Lemma issues_at_a_key_are_local_witness :
  issues_at "type"
    (issues_of (validate strict_host journey (VObject journey_bad_type)))
  = issues_at "type"
      (issues_of (validate strict_host journey
                           (VObject [("type", VString "promotion")]))).
Proof.
  apply (proj2 (issues_at_a_key_are_local strict_host journey "type"
                  (ZodEnum ["milestone"; "learning"; "transition"]) eq_refl)).
  reflexivity.
Defined.

(** X4. A declared key that is missing from an entry raises an issue at
    that key exactly when its schema does not end in [.optional()] or
    [.default()]. *)
Theorem missing_key_fails_iff_required (h : Host) (k : CollectionName)
        (o : list (string * value)) (key : string) (s : ZodType) :
  shape_get (shape_of k) key = Some s ->
  get o key = VUndefined ->
  (issues_at key (issues_of (validate h k (VObject o))) = []
   <-> may_be_omitted s = true).
Proof.
  intros Hg Hu. rewrite (validate_issues_at h k o key s Hg), Hu.
  pose proof (is_success_no_issues h s VUndefined) as Hi.
  destruct (may_be_omitted s) eqn:Hm.
  - split; [reflexivity|intros _].
    assert (Hok : is_success (_parse h s VUndefined) = true).
    { apply shape_get_some_in in Hg. clear - Hg Hm.
      destruct k; each_field Hg ltac:(first [discriminate Hm|reflexivity]). }
    rewrite Hok in Hi. now destruct (issues_of (_parse h s VUndefined)).
  - rewrite (required_rejects_undefined h s Hm) in Hi.
    split; [|discriminate]. intros E.
    destruct (issues_of (_parse h s VUndefined)); discriminate.
Qed.

Lemma missing_key_fails_iff_required_witness :
  (issues_at "skills"
     (issues_of (validate strict_host journey (VObject journey_bad_date))) = []
   <-> may_be_omitted (ZodOptional (ZodArray z_string)) = true)
  /\ (issues_at "quote"
        (issues_of (validate strict_host testimonials (VObject journey_bad_date))) = []
      <-> may_be_omitted z_string = true).
Proof.
  split.
  - apply (missing_key_fails_iff_required strict_host journey journey_bad_date
             "skills"); reflexivity.
  - apply (missing_key_fails_iff_required strict_host testimonials journey_bad_date
             "quote"); reflexivity.
Defined.

(** X5. For a key declared with [.default(d)], the data of a valid entry
    holds the value the entry gave, and [d] only when the entry gave
    none. *)
Theorem given_value_wins_over_default (h : Host) (k : CollectionName)
        (o : list (string * value)) (out : value)
        (key : string) (inner : ZodType) (d : value) :
  shape_get (shape_of k) key = Some (ZodDefault inner d) ->
  validate h k (VObject o) = Success out ->
  prop out key = match get o key with
                 | VUndefined => d
                 | v => v
                 end.
Proof.
  intros Hg Hs.
  pose proof (validate_success_get h k o out key _ Hs Hg) as Hp.
  assert (Hplain : plain inner = true).
  { apply shape_get_some_in in Hg. clear - Hg.
    destruct k; each_field Hg reflexivity. }
  cbn [_parse] in Hp.
  destruct (get o key); apply (plain_identity h inner _ _ Hplain Hp).
Qed.

Lemma given_value_wins_over_default_witness :
  exists out,
    validate strict_host projects
             (VObject (("status", VString "ongoing") :: project_required))
    = Success out
    /\ prop out "status" = VString "ongoing".
Proof.
  eexists. split; [reflexivity|].
  apply (given_value_wins_over_default strict_host projects
           (("status", VString "ongoing") :: project_required) _ "status"
           (ZodEnum ["completed"; "ongoing"; "archived"]) (VString "completed"));
    reflexivity.
Defined.

(** X6. Validation does not touch the value of a plain field: for a key
    whose schema is built from strings, numbers, booleans, enumerations,
    arrays and [.optional()] only, the data of a valid entry holds the very
    value the entry gave (no trimming, no change of case, no reordering of
    an array). *)
Theorem plain_fields_are_unchanged (h : Host) (k : CollectionName)
        (o : list (string * value)) (out : value) (key : string) (s : ZodType) :
  shape_get (shape_of k) key = Some s ->
  plain s = true ->
  validate h k (VObject o) = Success out ->
  prop out key = get o key.
Proof.
  intros Hg Hp Hs.
  apply (plain_identity h s _ _ Hp).
  now apply (validate_success_get h k o out key s Hs).
Qed.

Lemma plain_fields_are_unchanged_witness :
  exists out,
    validate strict_host projects (VObject project_required) = Success out
    /\ prop out "techStack" = VArray [VString "SQL"; VString "Python"].
Proof.
  eexists. split; [reflexivity|].
  apply (plain_fields_are_unchanged strict_host projects project_required _
           "techStack" (ZodArray z_string)); reflexivity.
Defined.

(** X7. The keys of the data of a valid entry are keys of the schema, each
    once and in the order of the schema, whatever the order of the entry;
    every key whose schema does not end in [.optional()] or [.default()]
    is among them. *)
Theorem output_keys_follow_the_schema (h : Host) (k : CollectionName)
        (o props : list (string * value)) :
  validate h k (VObject o) = Success (VObject props) ->
  map fst props = filter (has props) (keys (shape_of k))
  /\ (forall key s,
        shape_get (shape_of k) key = Some s ->
        may_be_omitted s = false ->
        has props key = true).
Proof.
  intros Hs.
  destruct (validate_success_inv h k o _ Hs) as [He Hout].
  inversion Hout as [Hprops]. clear Hout. split.
  - apply output_keys, shapes_no_duplicate_key.
  - intros key s Hg Hm.
    rewrite output_has_key, Hg by apply shapes_no_duplicate_key.
    pose proof (no_issues_field_success h _ o key s He
                  (shape_get_some_in _ _ _ Hg)) as Hok.
    destruct (_parse h s (get o key)) as [v|l] eqn:Hp; [|discriminate].
    destruct v; try reflexivity.
    apply success_undefined in Hp as Hu. rewrite Hu in Hp.
    pose proof (required_rejects_undefined h s Hm) as Hr.
    rewrite Hp in Hr. discriminate.
Qed.

Lemma output_keys_follow_the_schema_witness :
  map fst [ ("date", VDate (Some 1682899200000%Z));
            ("title", VString "First dashboard");
            ("type", VString "milestone");
            ("description", VString "Shipped it") ]
  = filter (has [ ("date", VDate (Some 1682899200000%Z));
                  ("title", VString "First dashboard");
                  ("type", VString "milestone");
                  ("description", VString "Shipped it") ])
           (keys (shape_of journey)).
Proof.
  apply (proj1 (output_keys_follow_the_schema strict_host journey
                  (rev (journey_entry (VString "2023-05-01") (VString "milestone")))
                  _ eq_refl)).
Defined.

(** X8. The items of a valid uses entry keep their number and their order:
    the i-th item of the data is the data of the i-th item of the
    entry. *)
Theorem uses_items_keep_their_order (h : Host)
        (o : list (string * value)) (out : value) :
  validate h uses (VObject o) = Success out ->
  exists items outs,
    get o "items" = VArray items
    /\ prop out "items" = VArray outs
    /\ Forall2 (fun x y => _parse h (ZodObject usesItemShape) x = Success y)
               items outs.
Proof.
  intros Hs.
  pose proof (validate_success_get h uses o out "items" _ Hs eq_refl) as Hp.
  apply array_success_inv in Hp.
  destruct Hp as (items & outs & Hi & Ho & HF). now exists items, outs.
Qed.

Lemma uses_items_keep_their_order_witness :
  exists items outs,
    get uses_two_items "items" = VArray items
    /\ prop uses_two_items_data "items" = VArray outs
    /\ Forall2 (fun x y => _parse strict_host (ZodObject usesItemShape) x = Success y)
               items outs.
Proof.
  apply (uses_items_keep_their_order strict_host uses_two_items uses_two_items_data).
  reflexivity.
Defined.

(** X9. An array field reports every element that fails, each below its
    index, in the order of the array; the empty array raises no issue,
    and a value that is not an array (a single string, say) is one
    [invalid_type] issue at the key, not an array of one. *)
Theorem array_fields_report_every_element (h : Host) (k : CollectionName)
        (o : list (string * value)) (key : string) (element : ZodType) :
  shape_get (shape_of k) key = Some (ZodArray element) ->
  issues_at key (issues_of (validate h k (VObject o)))
  = match get o key with
    | VArray elems => map (under (Key key)) (element_issues h element 0 elems)
    | v => [mkIssue [Key key] (invalid_type (ExpType PTarray) (getParsedType v))]
    end.
Proof.
  intros Hg. rewrite (validate_issues_at h k o key _ Hg).
  destruct (get o key) eqn:E; try reflexivity.
  now rewrite array_issues.
Qed.

Lemma array_fields_report_every_element_witness :
  issues_at "techStack"
    (issues_of (validate strict_host projects
                         (VObject (("techStack", VString "SQL") :: project_required))))
  = [mkIssue [Key "techStack"] (invalid_type (ExpType PTarray) PTstring)].
Proof.
  apply (array_fields_report_every_element strict_host projects
           (("techStack", VString "SQL") :: project_required)
           "techStack" z_string eq_refl).
Defined.

(** X10. A [z.string()] key takes any string, the empty string too, and
    nothing else: a number or a boolean is not turned into a string but
    is one [invalid_type] issue at the key. *)
Theorem string_fields_take_strings_only (h : Host) (k : CollectionName)
        (o : list (string * value)) (key : string) :
  shape_get (shape_of k) key = Some z_string ->
  issues_at key (issues_of (validate h k (VObject o)))
  = match get o key with
    | VString _ => []
    | v => [mkIssue [Key key] (invalid_type (ExpType PTstring) (getParsedType v))]
    end.
Proof.
  intros Hg. rewrite (validate_issues_at h k o key _ Hg).
  now destruct (get o key).
Qed.

Lemma string_fields_take_strings_only_witness :
  issues_at "title"
    (issues_of (validate strict_host journey
                  (VObject (("title", VString "") :: journey_bad_type))))
  = []
  /\ issues_at "title"
       (issues_of (validate strict_host journey
                     (VObject (("title", VNumber (number_of_Z 2023))
                                 :: journey_bad_type))))
     = [mkIssue [Key "title"] (invalid_type (ExpType PTstring) PTnumber)].
Proof.
  split.
  - apply (string_fields_take_strings_only strict_host journey
             (("title", VString "") :: journey_bad_type) "title" eq_refl).
  - apply (string_fields_take_strings_only strict_host journey
             (("title", VNumber (number_of_Z 2023)) :: journey_bad_type)
             "title" eq_refl).
Defined.

(** X11. [featured] takes booleans only: given as the string ["true"], as a
    number or as [null] it is one [invalid_type] issue at [featured], for
    a project and for a testimonial alike; omitted it raises none. *)
Theorem featured_takes_booleans_only (h : Host) (k : CollectionName)
        (o : list (string * value)) (d : value) :
  shape_get (shape_of k) "featured" = Some (ZodDefault ZodBoolean d) ->
  issues_at "featured" (issues_of (validate h k (VObject o)))
  = match get o "featured" with
    | VUndefined | VBool _ => []
    | v => [mkIssue [Key "featured"]
              (invalid_type (ExpType PTboolean) (getParsedType v))]
    end.
Proof.
  intros Hg. rewrite (validate_issues_at h k o _ _ Hg).
  assert (Hd : d = VBool false) by (destruct k; now inversion Hg).
  subst d. now destruct (get o "featured").
Qed.

Lemma featured_takes_booleans_only_witness :
  issues_at "featured"
    (issues_of (validate strict_host testimonials
                  (VObject [("featured", VString "true")])))
  = [mkIssue [Key "featured"] (invalid_type (ExpType PTboolean) PTstring)].
Proof.
  apply (featured_takes_booleans_only strict_host testimonials
           [("featured", VString "true")] (VBool false) eq_refl).
Defined.

(** X12. A valid entry never holds an invalid date: under a
    [z.coerce.date()] key its data is a [Date] with the time value of
    [new Date] of what the entry gave.  A number is read as milliseconds
    since the epoch, so that [date: 2023] is two seconds past the epoch,
    not the year 2023. *)
Theorem dates_in_valid_data_are_valid (h : Host) (k : CollectionName)
        (o : list (string * value)) (out : value) (key : string) :
  shape_get (shape_of k) key = Some ZodCoerceDate ->
  validate h k (VObject o) = Success out ->
  exists t,
    prop out key = VDate (Some t)
    /\ new_Date h (get o key) = Some t
    /\ (forall n, get o key = VNumber n -> TimeClip n = Some t).
Proof.
  intros Hg Hs.
  pose proof (validate_success_get h k o out key _ Hs Hg) as Hp.
  cbn [_parse] in Hp.
  destruct (new_Date h (get o key)) as [t|] eqn:Hn; [|discriminate].
  exists t. inversion Hp. repeat split.
  intros n E. now rewrite E in Hn.
Qed.

Lemma dates_in_valid_data_are_valid_witness :
  exists t,
    prop (VObject [ ("date", VDate (Some 2023%Z));
                    ("title", VString "First dashboard");
                    ("type", VString "milestone");
                    ("description", VString "Shipped it") ]) "date"
    = VDate (Some t)
    /\ TimeClip (number_of_Z 2023) = Some t.
Proof.
  destruct (dates_in_valid_data_are_valid strict_host journey
              (journey_entry (VNumber (number_of_Z 2023)) (VString "milestone"))
              _ "date" eq_refl eq_refl) as (t & Hd & _ & Hn).
  exists t. split; [exact Hd|]. now apply Hn.
Defined.

(** X13. What a collection asks of the host: projects and uses entries
    validate alike on two hosts with the same URL parser, whatever their
    date parsers (no schema of theirs coerces a date), and journey entries
    validate alike on two hosts with the same date functions, whatever
    their URL parsers.  Testimonials depend on both: one entry validates
    differently on two hosts that differ in the URL parser only, another
    on two hosts that differ in the time zone only. *)
Theorem collections_reach_only_their_part_of_the_host (h1 h2 : Host) (raw : value) :
  (same_urls h1 h2 ->
   validate h1 projects raw = validate h2 projects raw
   /\ validate h1 uses raw = validate h2 uses raw)
  /\ (same_dates h1 h2 ->
      validate h1 journey raw = validate h2 journey raw)
  /\ (same_dates strict_host lax_host
      /\ validate strict_host testimonials
           (VObject (testimonial_with (VString "https://linkedin.com/in/ada")
                                      (VString "2024-01-15")))
         <> validate lax_host testimonials
              (VObject (testimonial_with (VString "https://linkedin.com/in/ada")
                                         (VString "2024-01-15"))))
  /\ (same_urls (zone_host 0) (zone_host pacific_daylight)
      /\ validate (zone_host 0) testimonials
           (VObject (testimonial_with VUndefined (VString "2024-01-15T09:30:00")))
         <> validate (zone_host pacific_daylight) testimonials
              (VObject (testimonial_with VUndefined (VString "2024-01-15T09:30:00")))).
Proof.
  unfold validate. split; [|split; [|split]].
  - intros Hu. split; apply parse_same_hosts; intros E; try assumption;
      discriminate E.
  - intros Hd. apply parse_same_hosts; intros E; try assumption; discriminate E.
  - split; [split; intros; reflexivity|].
    intros E. vm_compute in E. discriminate E.
  - split; [intros s; reflexivity|].
    intros E. vm_compute in E. discriminate E.
Qed.

Lemma collections_reach_only_their_part_of_the_host_witness :
  validate strict_host projects (VObject project_required)
  = validate epoch_host projects (VObject project_required)
  /\ validate strict_host journey (VObject journey_bad_date)
     = validate lax_host journey (VObject journey_bad_date).
Proof.
  split.
  - apply (proj1 (collections_reach_only_their_part_of_the_host
                    strict_host epoch_host (VObject project_required))).
    intros s. reflexivity.
  - apply (proj1 (proj2 (collections_reach_only_their_part_of_the_host
                           strict_host lax_host (VObject journey_bad_date)))).
    split; intros; reflexivity.
Defined.

(** X14. No two pages of [pagesConfig] share a title or a description,
    and a page with an [intro] has a [heading] to put it under. *)
Theorem pages_are_told_apart (p : Pages.PageId) :
  NoDup (map (fun q => Pages.title (Pages.pagesConfig q)) Pages.all_pages)
  /\ NoDup (map (fun q => Pages.description (Pages.pagesConfig q)) Pages.all_pages)
  /\ match Pages.intro (Pages.pagesConfig p), Pages.heading (Pages.pagesConfig p) with
     | Some _, None => False
     | _, _ => True
     end.
Proof.
  repeat split.
  - cbn. repeat (constructor; [cbn; intuition discriminate|]). constructor.
  - cbn. repeat (constructor; [cbn; intuition discriminate|]). constructor.
  - now destruct p.
Qed.

(** X15. Every collection loads the [.mdx] files, at any depth, of the
    directory [./src/content/] followed by its own key, and no two
    collections read the same directory. *)
Theorem collections_load_their_own_directory (k : CollectionName) :
  pattern (loader (collections k)) = "**/*.mdx"
  /\ base (loader (collections k)) = String.append "./src/content/" (name_of k)
  /\ NoDup (map (fun c => base (loader (collections c)))
                [projects; journey; uses; testimonials]).
Proof.
  repeat split.
  - now destruct k.
  - now destruct k.
  - cbn. repeat (constructor; [cbn; intuition discriminate|]). constructor.
Qed.

(** Reading digits, or a character, off the front of a longer string. *)
Lemma digits_app (k : nat) (s r : string) (acc z : Z) (s' : string) :
  digits k s acc = Some (z, s') ->
  digits k (s ++ r)%string acc = Some (z, (s' ++ r)%string).
Proof.
  revert s acc. induction k as [|k IH]; intros s acc; cbn [digits].
  - intros E. now inversion E.
  - destruct s as [|c rest]; [discriminate|]. cbn [String.append digits].
    destruct (digit c); [|discriminate]. apply IH.
Qed.

Lemma expect_app (c : ascii) (s r s' : string) :
  expect c s = Some s' -> expect c (s ++ r)%string = Some (s' ++ r)%string.
Proof.
  destruct s as [|c' rest]; cbn; [discriminate|].
  destruct (Ascii.eqb c c'); [|discriminate]. intros E. now inversion E.
Qed.

(** A date-only string, read with a time part after it. *)
Lemma parse_iso_date_app (s r : string) (day : Z) :
  parse_iso_date s = Some (day, ""%string) ->
  expect "-" r = None ->
  parse_iso_date (s ++ r)%string = Some (day, r).
Proof.
  unfold parse_iso_date. intros Hs Hr.
  destruct (digits 4 s 0) as [[y s1]|] eqn:Hy; [|discriminate].
  rewrite (digits_app _ _ r _ _ _ Hy).
  destruct (expect "-" s1) as [s2|] eqn:E1.
  - rewrite (expect_app _ _ r _ E1).
    destruct (digits 2 s2 0) as [[m s3]|] eqn:Hm; [|discriminate].
    rewrite (digits_app _ _ r _ _ _ Hm).
    destruct ((1 <=? m)%Z && (m <=? 12)%Z); [|discriminate].
    destruct (expect "-" s3) as [s4|] eqn:E2.
    + rewrite (expect_app _ _ r _ E2).
      destruct (digits 2 s4 0) as [[d s5]|] eqn:Hd; [|discriminate].
      rewrite (digits_app _ _ r _ _ _ Hd).
      destruct ((1 <=? d)%Z && (d <=? days_in_month y m)%Z); [|discriminate].
      inversion Hs; subst. reflexivity.
    + inversion Hs; subst. cbn [String.append]. now rewrite Hr.
  - inversion Hs; subst. cbn [String.append]. now rewrite Hr.
Qed.

(** X16. A date-only string is the midnight of that day in UTC: a journey
    entry dated [YYYY], [YYYY-MM] or [YYYY-MM-DD] validates to the very
    result of the entry dated with the same string followed by
    [T00:00:00.000Z], on every host. *)
Theorem date_only_is_midnight_utc (h : Host) (o : list (string * value))
        (s : string) (day : Z) :
  parse_iso_date s = Some (day, ""%string) ->
  Date_parse h s = Some (day * msPerDay)%Z
  /\ Date_parse h (s ++ "T00:00:00.000Z")%string = Some (day * msPerDay)%Z
  /\ validate h journey (VObject (("date", VString s) :: o))
     = validate h journey
         (VObject (("date", VString (s ++ "T00:00:00.000Z")%string) :: o)).
Proof.
  intros Hs.
  assert (H1 : Date_parse h s = Some (day * msPerDay)%Z).
  { unfold Date_parse, parse_iso_utc. now rewrite Hs. }
  assert (H2 : Date_parse h (s ++ "T00:00:00.000Z")%string
               = Some (day * msPerDay)%Z).
  { unfold Date_parse, parse_iso_utc.
    rewrite (parse_iso_date_app s "T00:00:00.000Z" day Hs eq_refl).
    cbv beta iota.
    change (parse_iso_time_utc "T00:00:00.000Z") with (Some 0%Z).
    cbv beta iota. now rewrite Z.add_0_r. }
  repeat split; try assumption.
  unfold validate. cbn -[Date_parse String.append]. now rewrite H1, H2.
Qed.

Lemma date_only_is_midnight_utc_witness :
  Date_parse strict_host "2023-05" = Some (19478 * msPerDay)%Z
  /\ Date_parse strict_host "2023-05T00:00:00.000Z" = Some (19478 * msPerDay)%Z.
Proof.
  destruct (date_only_is_midnight_utc strict_host [] "2023-05" 19478 eq_refl)
    as (H1 & H2 & _).
  split; [exact H1|exact H2].
Defined.

(** X17. The day numbers behind every coerced date follow the calendar:
    the first day of a month comes [days_in_month] days after the first
    day of the month before, January after a December of 31 days, day by
    day within a month, and 1970-01-01 is day 0. *)
Theorem day_numbers_follow_the_calendar (y m d : Z) :
  (1 <= m <= 11)%Z ->
  MakeDay y (m + 1) 1 = (MakeDay y m 1 + days_in_month y m)%Z
  /\ MakeDay (y + 1) 1 1 = (MakeDay y 12 1 + 31)%Z
  /\ MakeDay y m (d + 1) = (MakeDay y m d + 1)%Z
  /\ MakeDay 1970 1 1 = 0%Z.
Proof.
  intros Hm. repeat split.
  - assert (Hc : (m = 1 \/ m = 2 \/ m = 3 \/ m = 4 \/ m = 5 \/ m = 6 \/ m = 7
                  \/ m = 8 \/ m = 9 \/ m = 10 \/ m = 11)%Z) by lia.
    unfold MakeDay, days_in_month, is_leap.
    repeat (destruct Hc as [Hc|Hc]; [subst m; cbn|]); try subst m; cbn;
      try lia.
    destruct (Z.eqb_spec (y mod 4) 0), (Z.eqb_spec (y mod 100) 0),
      (Z.eqb_spec (y mod 400) 0); cbn; Z.div_mod_to_equations; lia.
  - unfold MakeDay. cbn. replace (y + 1 - 1)%Z with y by lia. lia.
  - unfold MakeDay. lia.
Qed.

Lemma day_numbers_follow_the_calendar_witness :
  MakeDay 2024 3 1 = (MakeDay 2024 2 1 + days_in_month 2024 2)%Z.
Proof.
  apply (proj1 (day_numbers_follow_the_calendar 2024 2 1 ltac:(lia))).
Defined.


(* ================================================================== *)
(** ** URL leniency and the time zone *)

(** C6, counterexample.  The URL parser is lenient: a string with a leading
    space and a Windows path, neither a valid URL string, are accepted as
    [linkedin] on a host whose parser takes every input with a scheme, as
    the URL Standard's does for these two, and are kept as given. *)
Lemma lenient_url_parser_accepts_malformed :
  only_url_units " HTTPS://zod.dev" = false
  /\ validate lax_host testimonials
       (VObject (testimonial_with (VString " HTTPS://zod.dev") (VString "2024-01-15")))
     = Success (testimonial_data (VString " HTTPS://zod.dev") 1705276800000)
  /\ only_url_units "C:\Users\ken" = false
  /\ validate lax_host testimonials
       (VObject (testimonial_with (VString "C:\Users\ken") (VString "2024-01-15")))
     = Success (testimonial_data (VString "C:\Users\ken") 1705276800000).
Proof. repeat split. Qed.



